(** * Department and Employee Management System: task assignment and auth gates

    A shallow embedding of the decision logic of the backend:
    - [Routes/departmentRoute.js]: [findDepartmentByName], [selectEmployee],
      the task creation route and the task update route;
    - [Middleware/jwt.js]: [jwtAuthMiddleware], [adminAuthMiddleware],
      [generateToken];
    - [models/taskSchema.js], [models/employee.js], [models/department.js];
    - the other task routes and the two listings of
      [Routes/departmentRoute.js], the task listing of
      [Routes/employeeRoute.js], the login route of [Routes/auth.js], and
      the department routes and the employee listing of [Routes/admin.js].

    The record store (MongoDB through mongoose) is a record of three lists,
    one per collection, in the order in which [find] yields the documents.
    The libraries the code calls (jsonwebtoken, the [Date] constructor) are
    parameters of the functions that use them. *)

From Stdlib Require Import ZArith NArith List Ascii String Bool Lia.
From Stdlib Require Import DecimalString.
From stdpp Require Import base option list gmap strings.

Local Open Scope string_scope.
Local Open Scope list_scope.

(** ** JavaScript values *)

(** A JSON value as a request body or a token payload carries it. Arrays and
    objects nested in a value are kept opaque ([JCompound]): the code only
    tests them for truthiness and hands them to a cast. Numbers are the
    integers. *)
Inductive JValue : Type :=
  | JNull
  | JBool (b : bool)
  | JNum (n : Z)
  | JStr (s : string)
  | JCompound.

(** A JavaScript object used as a dictionary; a missing key reads as
    [undefined], here [None]. *)
Abbreviation JsObject := (gmap string JValue).

(** [if (v)] on a JavaScript value. *)
Definition truthy (v : JValue) : bool :=
  match v with
  | JNull => false
  | JBool b => b
  | JNum n => negb (n =? 0)%Z
  | JStr s => negb (String.eqb s "")
  | JCompound => true
  end.

(** [if (o.k)] where the key may be missing. *)
Definition truthy_field (v : option JValue) : bool :=
  match v with
  | Some x => truthy x
  | None => false
  end.

(** A number variable that starts at [Infinity] and later holds counts. *)
Inductive JsCount : Type :=
  | Infinity
  | Count (n : nat).

(** [a < m] and [a === m] for a count [a] against such a variable. *)
Definition count_lt (a : nat) (m : JsCount) : bool :=
  match m with
  | Infinity => true
  | Count k => Nat.ltb a k
  end.

Definition count_eq (a : nat) (m : JsCount) : bool :=
  match m with
  | Infinity => false
  | Count k => Nat.eqb a k
  end.

(** [s.split(c)] for a one-character separator: never the empty list. *)
Fixpoint split (c : ascii) (s : string) : list string :=
  match s with
  | EmptyString => [EmptyString]
  | String x r =>
      if Ascii.eqb x c then EmptyString :: split c r
      else match split c r with
           | h :: t => String x h :: t
           | [] => [String x EmptyString]
           end
  end.

(** Whether the character occurs in the string. *)
Fixpoint occurs (c : ascii) (s : string) : bool :=
  match s with
  | EmptyString => false
  | String x r => Ascii.eqb x c || occurs c r
  end.

(** ** The record store *)

Definition ObjectId := N.

(** models/department.js *)
Record Department : Type := {
  dept_id : ObjectId;
  dept_name : string;
  dept_description : string;
  dept_employees : list ObjectId
}.

(** models/employee.js *)
Record Profile : Type := {
  phone : option string;
  address : option string;
  position : option string
}.

Record Employee : Type := {
  emp_id : ObjectId;
  emp_name : string;
  emp_email : string;
  emp_password : string;
  emp_role : string;
  emp_departmentId : ObjectId;
  emp_profile : Profile
}.

(** models/taskSchema.js; [dueDate] in milliseconds since the epoch. The
    [createdAt] and [updatedAt] stamps that mongoose keeps are left out: no
    route reads them. *)
Record Task : Type := {
  task_id : ObjectId;
  title : string;
  description : string;
  departmentId : ObjectId;
  assignedTo : ObjectId;
  status : string;
  dueDate : Z
}.

Record DB : Type := {
  departments : list Department;
  employees : list Employee;
  tasks : list Task
}.

(** [Model.countDocuments(q)] *)
Definition countDocuments {A : Type} (q : A -> bool) (docs : list A) : nat :=
  length (List.filter q docs).

(** [Model.findOne(q)]: the first match, or [null]. *)
Definition findOne {A : Type} (q : A -> bool) (docs : list A) : option A :=
  List.find q docs.

(** [Employee.find({ departmentId })] *)
Definition employeesOf (db : DB) (dep : ObjectId) : list Employee :=
  List.filter (fun e => N.eqb (emp_departmentId e) dep) (employees db).

(** [status: { $in: ['pending', 'in-progress'] }] *)
Definition is_open (s : string) : bool :=
  String.eqb s "pending" || String.eqb s "in-progress".

(** [Task.countDocuments({ assignedTo: employee._id })] *)
Definition totalTasks (db : DB) (e : Employee) : nat :=
  countDocuments (fun t => N.eqb (assignedTo t) (emp_id e)) (tasks db).

(** [Task.countDocuments({ assignedTo: employee._id,
                           status: { $in: ['pending', 'in-progress'] } })] *)
Definition pendingTasks (db : DB) (e : Employee) : nat :=
  countDocuments
    (fun t => N.eqb (assignedTo t) (emp_id e) && is_open (status t)) (tasks db).

(** ** selectEmployee *)

(** The three variables of the selection loop. *)
Record Selection : Type := {
  selectedEmployee : option Employee;
  minTaskCount : JsCount;
  minPendingTasks : JsCount
}.

Definition selection0 : Selection :=
  {| selectedEmployee := None;
     minTaskCount := Infinity;
     minPendingTasks := Infinity |}.

(** One iteration of [for (const employee of employees)]. *)
Definition select_step (db : DB) (st : Selection) (employee : Employee)
  : Selection :=
  let total := totalTasks db employee in
  let pending := pendingTasks db employee in
  if count_lt total (minTaskCount st)
     || (count_eq total (minTaskCount st)
         && count_lt pending (minPendingTasks st))
  then {| selectedEmployee := Some employee;
          minTaskCount := Count total;
          minPendingTasks := Count pending |}
  else st.

Definition select_loop (db : DB) (emps : list Employee) : Selection :=
  fold_left (select_step db) emps selection0.

(** How [selectEmployee] reached its result. *)
Inductive SelectPath : Type :=
  | NoEmployees
  | FromLoop
  | Fallback.

(** [selectEmployee(departmentId)] together with the branch that returned. *)
Definition selectEmployee_path (db : DB) (dep : ObjectId)
  : option Employee * SelectPath :=
  let emps := employeesOf db dep in
  if Nat.eqb (length emps) 0 then (None, NoEmployees)
  else
    match selectedEmployee (select_loop db emps) with
    | Some e => (Some e, FromLoop)
    | None => (head emps, Fallback)
    end.

Definition selectEmployee (db : DB) (dep : ObjectId) : option Employee :=
  fst (selectEmployee_path db dep).

(** ** Exceptions, requests and responses *)

(** A thrown error. [JsError m] carries its [err.message]; the two others
    are mongoose's rejections at [save] or in a query, whose message text is
    the library's and is never ['Department not found']. *)
Inductive Exn : Type :=
  | JsError (message : string)
  | ValidationError
  | CastError.

Inductive Result (A : Type) : Type :=
  | Ok (a : A)
  | Throw (e : Exn).

Arguments Ok {A} a.
Arguments Throw {A} e.

(** What the code reads of a request. [taskId] is the path segment as the
    query casts it to an ObjectId, [None] when that cast throws; [user] is
    [req.user]. *)
Record Request : Type := {
  authorization : option string;
  departmentName : string;
  taskId : option ObjectId;
  body : JsObject;
  user : option JsObject
}.

(** The JSON bodies the code sends: [{ message }], [{ message, error }],
    [{ error }] and a task document. *)
Inductive ResBody : Type :=
  | Message (message : string)
  | MessageError (message : string) (error : Exn)
  | ErrorBody (error : Exn)
  | TaskJson (t : Task).

(** [res.status(code).json(body)] *)
Record Response : Type := {
  res_status : nat;
  res_body : ResBody
}.

(** A middleware either calls [next()] with the request it has worked on
    or answers the request itself. *)
Inductive Outcome : Type :=
  | Next (req : Request)
  | Respond (res : Response).

Definition set_user (req : Request) (decoded : JsObject) : Request :=
  {| authorization := authorization req;
     departmentName := departmentName req;
     taskId := taskId req;
     body := body req;
     user := Some decoded |}.

(** ** Middleware/jwt.js *)

(** The two functions of jsonwebtoken the code calls. [jwt_sign payload key
    expiresIn clock] and [jwt_verify token key clock]: [key] is
    [process.env.JWT_SECRET], [undefined] as [None]; [expiresIn] and the
    clock readings are in seconds. *)
Record JwtLibrary : Type := {
  jwt_sign : JsObject -> option string -> Z -> Z -> Result string;
  jwt_verify : string -> option string -> Z -> Result JsObject
}.

(** [if (s)] on a string that may be [undefined]. *)
Definition truthy_string (s : option string) : bool :=
  match s with
  | Some x => negb (String.eqb x "")
  | None => false
  end.

(** [h.split(' ')[1]] *)
Definition second_segment (h : string) : option string :=
  nth_error (split " " h) 1.

Definition jwtAuthMiddleware (J : JwtLibrary) (JWT_SECRET : option string)
    (clock : Z) (req : Request) : Outcome :=
  let authHeader := authorization req in
  if negb (truthy_string authHeader) then
    Respond {| res_status := 401;
               res_body := Message "Access denied. No token provided." |}
  else
    let token := from_option second_segment None authHeader in
    if negb (truthy_string token) then
      Respond {| res_status := 401;
                 res_body := Message "Access denied. Invalid token format." |}
    else
      match jwt_verify J (default "" token) JWT_SECRET clock with
      | Ok decoded => Next (set_user req decoded)
      | Throw err =>
          Respond {| res_status := 401; res_body := Message "Invalid token." |}
      end.

(** [expiresIn: '1h'] *)
Definition ONE_HOUR : Z := 3600.

Definition generateToken (J : JwtLibrary) (JWT_SECRET : option string)
    (clock : Z) (payload : JsObject) : Result string :=
  jwt_sign J payload JWT_SECRET ONE_HOUR clock.

Definition adminAuthMiddleware (J : JwtLibrary) (JWT_SECRET : option string)
    (clock : Z) (req : Request) : Outcome :=
  let token := from_option second_segment None (authorization req) in
  if negb (truthy_string token) then
    Respond {| res_status := 401;
               res_body := Message "Access denied. No token provided." |}
  else
    match jwt_verify J (default "" token) JWT_SECRET clock with
    | Ok decoded =>
        if truthy_field (decoded !! "isAdmin") then Next (set_user req decoded)
        else Respond {| res_status := 403;
                        res_body := Message "Access denied. Admins only." |}
    | Throw err =>
        Respond {| res_status := 400;
                   res_body := MessageError "Invalid token" err |}
    end.

(** [router.METHOD(path, gate, handler)]: the handler runs only when the
    gate calls [next()]. *)
Definition route (gate : Request -> Outcome)
    (handler : Request -> DB -> Response * DB) (req : Request) (db : DB)
  : Response * DB :=
  match gate req with
  | Next req' => handler req' db
  | Respond res => (res, db)
  end.

(** ** The vocabulary of the specification for a rejected request *)

Inductive AuthFailure : Type :=
  | NoToken
  | MalformedHeader
  | InvalidToken.

(** An [Unauthenticated] failure is a 401 answer; its kind is read off the
    message. *)
Definition unauthenticated (res : Response) : option AuthFailure :=
  if Nat.eqb (res_status res) 401 then
    match res_body res with
    | Message m =>
        if String.eqb m "Access denied. No token provided." then Some NoToken
        else if String.eqb m "Access denied. Invalid token format."
        then Some MalformedHeader
        else if String.eqb m "Invalid token." then Some InvalidToken
        else None
    | _ => None
    end
  else None.

(** A [Forbidden] failure is a 403 answer. *)
Definition forbidden (res : Response) : bool := Nat.eqb (res_status res) 403.

(** ** Routes/departmentRoute.js *)

Definition findDepartmentByName (db : DB) (name : string)
  : Result Department :=
  match findOne (fun d => String.eqb (dept_name d) name) (departments db) with
  | Some department => Ok department
  | None => Throw (JsError "Department not found")
  end.

(** mongoose's cast of a value to a [String] path: numbers and booleans are
    printed, arrays and objects are refused. *)
Definition castString (v : JValue) : option string :=
  match v with
  | JStr s => Some s
  | JNum n => Some (NilZero.string_of_int (Z.to_int n))
  | JBool b => Some (if b then "true" else "false")
  | JNull => None
  | JCompound => None
  end.

(** A [String] path with [required: true], as [save] validates it: a
    missing, null, uncastable or empty value is rejected. *)
Definition requiredString (v : option JValue) : Result string :=
  match v with
  | None => Throw ValidationError
  | Some x =>
      match castString x with
      | Some s => if String.eqb s "" then Throw ValidationError else Ok s
      | None => Throw ValidationError
      end
  end.

(** [enum: ['pending', 'in-progress', 'completed']] *)
Definition status_enum : list string := ["pending"; "in-progress"; "completed"].

Definition in_enum (s : string) : bool := existsb (String.eqb s) status_enum.

Definition MS_PER_DAY : Z := 86400000.

(** [DateTime.now().plus({ days }).toJSDate()], in a zone whose offset does
    not change over the interval. *)
Definition plus_days (now : Z) (days : Z) : Z := (now + days * MS_PER_DAY)%Z.

(** [new Task({ title, description, departmentId, assignedTo, dueDate })]
    followed by [task.save()]: the document as stored, or the rejection.
    [status] takes the schema default. *)
Definition newTask (newId : ObjectId) (title_v description_v : option JValue)
    (department_id assignee : ObjectId) (due : Z) : Result Task :=
  match requiredString title_v with
  | Throw e => Throw e
  | Ok t =>
      match requiredString description_v with
      | Throw e => Throw e
      | Ok d =>
          Ok {| task_id := newId;
                title := t;
                description := d;
                departmentId := department_id;
                assignedTo := assignee;
                status := "pending";
                dueDate := due |}
      end
  end.

Definition insertTask (t : Task) (db : DB) : DB :=
  {| departments := departments db;
     employees := employees db;
     tasks := tasks db ++ [t] |}.

(** The handler of [POST /:departmentName/task]. [now] is the reading of
    [DateTime.now()] in milliseconds, [newId] the [_id] that the new
    document receives. *)
Definition createTask (now : Z) (newId : ObjectId) (req : Request) (db : DB)
  : Response * DB :=
  let title_v := body req !! "title" in
  let description_v := body req !! "description" in
  let due := plus_days now 7 in
  let caught (err : Exn) :=
    match err with
    | JsError m =>
        if String.eqb m "Department not found"
        then ({| res_status := 404; res_body := Message m |}, db)
        else ({| res_status := 500; res_body := ErrorBody err |}, db)
    | _ => ({| res_status := 500; res_body := ErrorBody err |}, db)
    end in
  match findDepartmentByName db (departmentName req) with
  | Throw err => caught err
  | Ok department =>
      match selectEmployee db (dept_id department) with
      | None =>
          ({| res_status := 500; res_body := Message "Unable to assign task" |},
           db)
      | Some selected =>
          match newTask newId title_v description_v
                  (dept_id department) (emp_id selected) due with
          | Throw err => caught err
          | Ok task =>
              ({| res_status := 201; res_body := TaskJson task |},
               insertTask task db)
          end
      end
  end.

(** What an assignment [task.path = value] leaves for [save] to see. *)
Inductive Assigned (A : Type) : Type :=
  | Untouched
  | Changed (a : A)
  | Uncastable.

Arguments Untouched {A}.
Arguments Changed {A} a.
Arguments Uncastable {A}.

Record TaskChanges : Type := {
  new_title : Assigned string;
  new_description : Assigned string;
  new_status : Assigned string;
  new_dueDate : Assigned Z
}.

(** [if (v) task.path = cast(v)] *)
Definition assign_if {A : Type} (cast : JValue -> option A)
    (v : option JValue) : Assigned A :=
  if truthy_field v then
    match v with
    | Some x =>
        match cast x with
        | Some a => Changed a
        | None => Uncastable
        end
    | None => Untouched
    end
  else Untouched.

Definition assigned_or {A : Type} (old : A) (c : Assigned A) : A :=
  match c with
  | Changed a => a
  | _ => old
  end.

(** The document after the assignments: only the four paths are written. *)
Definition applyChanges (c : TaskChanges) (t : Task) : Task :=
  {| task_id := task_id t;
     title := assigned_or (title t) (new_title c);
     description := assigned_or (description t) (new_description c);
     departmentId := departmentId t;
     assignedTo := assignedTo t;
     status := assigned_or (status t) (new_status c);
     dueDate := assigned_or (dueDate t) (new_dueDate c) |}.

Definition castable {A : Type} (c : Assigned A) : bool :=
  match c with
  | Uncastable => false
  | _ => true
  end.

(** [save] on a loaded document validates the paths that were assigned. *)
Definition validChanges (c : TaskChanges) : bool :=
  castable (new_title c) && castable (new_description c)
  && castable (new_dueDate c)
  && match new_status c with
     | Untouched => true
     | Changed s => in_enum s
     | Uncastable => false
     end
  && match new_title c with Changed s => negb (String.eqb s "") | _ => true end
  && match new_description c with
     | Changed s => negb (String.eqb s "")
     | _ => true
     end.

(** [save] on a loaded document: the assigned paths are written to the
    stored document that has its [_id]. *)
Fixpoint updateOne (id : ObjectId) (f : Task -> Task) (ts : list Task)
  : list Task :=
  match ts with
  | [] => []
  | t :: rest =>
      if N.eqb (task_id t) id then f t :: rest
      else t :: updateOne id f rest
  end.

Definition saveChanges (id : ObjectId) (c : TaskChanges) (db : DB) : DB :=
  {| departments := departments db;
     employees := employees db;
     tasks := updateOne id (applyChanges c) (tasks db) |}.

(** The handler of [PUT /:departmentName/task/:taskId]. [newDate v] is
    [new Date(v)], [None] when the result is an invalid date, which [save]
    refuses. *)
Definition updateTask (newDate : JValue -> option Z) (req : Request) (db : DB)
  : Response * DB :=
  let changes :=
    {| new_title := assign_if castString (body req !! "title");
       new_description := assign_if castString (body req !! "description");
       new_status := assign_if castString (body req !! "status");
       new_dueDate := assign_if newDate (body req !! "dueDate") |} in
  match findDepartmentByName db (departmentName req) with
  | Throw err => ({| res_status := 500; res_body := ErrorBody err |}, db)
  | Ok department =>
      match taskId req with
      | None => ({| res_status := 500; res_body := ErrorBody CastError |}, db)
      | Some id =>
          match findOne (fun t => N.eqb (task_id t) id
                                  && N.eqb (departmentId t) (dept_id department))
                  (tasks db) with
          | None =>
              ({| res_status := 404;
                  res_body := Message "Task not found in this department" |},
               db)
          | Some task =>
              if validChanges changes then
                ({| res_status := 200;
                    res_body := TaskJson (applyChanges changes task) |},
                 saveChanges (task_id task) changes db)
              else
                ({| res_status := 500; res_body := ErrorBody ValidationError |},
                 db)
          end
      end
  end.

(** The two task routes behind their gate. *)
Definition postTaskRoute (J : JwtLibrary) (JWT_SECRET : option string)
    (clock now : Z) (newId : ObjectId) : Request -> DB -> Response * DB :=
  route (jwtAuthMiddleware J JWT_SECRET clock) (createTask now newId).

Definition putTaskRoute (J : JwtLibrary) (JWT_SECRET : option string)
    (clock : Z) (newDate : JValue -> option Z)
  : Request -> DB -> Response * DB :=
  route (jwtAuthMiddleware J JWT_SECRET clock) (updateTask newDate).

(** [Employee.findById(id)] *)
Definition findEmployeeById (db : DB) (id : ObjectId) : option Employee :=
  findOne (fun e => N.eqb (emp_id e) id) (employees db).

(** ** What the code relies on from jsonwebtoken *)

(** The payload a verified token decodes to: the signed payload with the
    issue time [iat] and the expiry [exp] added. *)
Definition stamped (payload : JsObject) (iat exp : Z) : JsObject :=
  <["exp" := JNum exp]> (<["iat" := JNum iat]> payload).

(** The claims record [{ userId, email, isAdmin }] handed to
    [generateToken]. *)
Definition claims (userId email : string) (isAdmin : bool) : JsObject :=
  <["userId" := JStr userId]>
    (<["email" := JStr email]> (<["isAdmin" := JBool isAdmin]> ∅)).

(** The documented behaviour of [jwt.sign] and [jwt.verify]: a token is a
    non-empty string without a space (base64url segments joined by dots),
    and a token signed with a key verifies under that key, until its expiry,
    to the payload with [iat] and [exp] added. *)
Record JwtContract (J : JwtLibrary) : Prop := {
  sign_compact :
    forall payload key expiresIn clock token,
      jwt_sign J payload key expiresIn clock = Ok token ->
      token <> "" /\ occurs " " token = false;
  verify_signed :
    forall payload key expiresIn clock token later,
      jwt_sign J payload (Some key) expiresIn clock = Ok token ->
      payload !! "iat" = None ->
      payload !! "exp" = None ->
      (later < clock + expiresIn)%Z ->
      jwt_verify J token (Some key) later
      = Ok (stamped payload clock (clock + expiresIn))
}.

(** A small token library that meets the contract, to run the gates on:
    the token spells out the claims, the two times and the key, each in an
    alphabet without dot or space. It signs claims records only. *)
Module RefJwt.

Definition nibble (b0 b1 b2 b3 : bool) : ascii :=
  Ascii b0 b1 b2 b3 false false true false.

Fixpoint armor (s : string) : string :=
  match s with
  | EmptyString => EmptyString
  | String (Ascii b0 b1 b2 b3 b4 b5 b6 b7) r =>
      String (nibble b0 b1 b2 b3) (String (nibble b4 b5 b6 b7) (armor r))
  end.

Definition unnibble (c : ascii) : option (bool * bool * bool * bool) :=
  match c with
  | Ascii b0 b1 b2 b3 false false true false => Some (b0, b1, b2, b3)
  | _ => None
  end.

Fixpoint unarmor (s : string) : option string :=
  match s with
  | EmptyString => Some EmptyString
  | String lo (String hi r) =>
      match unnibble lo, unnibble hi, unarmor r with
      | Some (b0, b1, b2, b3), Some (b4, b5, b6, b7), Some t =>
          Some (String (Ascii b0 b1 b2 b3 b4 b5 b6 b7) t)
      | _, _, _ => None
      end
  | String _ EmptyString => None
  end.

Fixpoint bits (p : positive) : string :=
  match p with
  | xH => EmptyString
  | xO q => String "0" (bits q)
  | xI q => String "1" (bits q)
  end.

Fixpoint unbits (s : string) : option positive :=
  match s with
  | EmptyString => Some xH
  | String c r =>
      match unbits r with
      | Some q =>
          if Ascii.eqb c "0" then Some (xO q)
          else if Ascii.eqb c "1" then Some (xI q)
          else None
      | None => None
      end
  end.

Definition num (z : Z) : string :=
  match z with
  | Z0 => "z"
  | Zpos p => String "p" (bits p)
  | Zneg p => String "n" (bits p)
  end.

Definition unnum (s : string) : option Z :=
  match s with
  | EmptyString => None
  | String c r =>
      if Ascii.eqb c "z" then
        (if String.eqb r "" then Some 0%Z else None)
      else if Ascii.eqb c "p" then option_map Zpos (unbits r)
      else if Ascii.eqb c "n" then option_map Zneg (unbits r)
      else None
  end.

Definition flag (b : bool) : string := if b then "t" else "f".

Definition unflag (s : string) : option bool :=
  if String.eqb s "t" then Some true
  else if String.eqb s "f" then Some false
  else None.

Definition dot (a b : string) : string := String.append a (String "." b).

Definition token_of (u e : string) (a : bool) (iat exp : Z) (k : string)
  : string :=
  dot (armor u) (dot (armor e) (dot (flag a)
    (dot (num iat) (dot (num exp) (armor k))))).

#[local] Instance JValue_eq_dec : EqDecision JValue.
Proof. solve_decision. Defined.

Definition sign (payload : JsObject) (key : option string)
    (expiresIn clock : Z) : Result string :=
  match key, payload !! "userId", payload !! "email",
        payload !! "isAdmin" with
  | Some k, Some (JStr u), Some (JStr e), Some (JBool a) =>
      if decide (payload = claims u e a)
      then Ok (token_of u e a clock (clock + expiresIn) k)
      else Throw (JsError "unsupported payload")
  | None, _, _, _ => Throw (JsError "secretOrPrivateKey must have a value")
  | _, _, _, _ => Throw (JsError "unsupported payload")
  end.

Definition verify (token : string) (key : option string) (clock : Z)
  : Result JsObject :=
  match split "." token with
  | [su; se; sa; si; sx; sk] =>
      match unarmor su, unarmor se, unflag sa, unnum si, unnum sx,
            unarmor sk with
      | Some u, Some e, Some a, Some iat, Some exp, Some k =>
          match key with
          | Some k' =>
              if String.eqb k k' then
                if (clock <? exp)%Z then Ok (stamped (claims u e a) iat exp)
                else Throw (JsError "jwt expired")
              else Throw (JsError "invalid signature")
          | None => Throw (JsError "secret or public key must be provided")
          end
      | _, _, _, _, _, _ => Throw (JsError "jwt malformed")
      end
  | _ => Throw (JsError "jwt malformed")
  end.

Definition lib : JwtLibrary := {| jwt_sign := sign; jwt_verify := verify |}.

End RefJwt.

(** ** models/employee.js *)

(** The two functions of bcrypt the model calls. *)
Record Bcrypt : Type := {
  bcrypt_hash : string -> string -> Result string;
  bcrypt_compare : string -> string -> Result bool
}.

Definition set_password (person : Employee) (hashed : string) : Employee :=
  {| emp_id := emp_id person;
     emp_name := emp_name person;
     emp_email := emp_email person;
     emp_password := hashed;
     emp_role := emp_role person;
     emp_departmentId := emp_departmentId person;
     emp_profile := emp_profile person |}.

(** [employeeSchema.pre('save', ...)]: [isModified] is
    [person.isModified('password')], [salt] what [bcrypt.genSalt(10)]
    yields. *)
Definition preSave (B : Bcrypt) (isModified : bool) (salt : Result string)
    (person : Employee) : Result Employee :=
  if negb isModified then Ok person
  else
    match salt with
    | Throw err => Throw err
    | Ok s =>
        match bcrypt_hash B (emp_password person) s with
        | Throw err => Throw err
        | Ok hashedPassword => Ok (set_password person hashedPassword)
        end
    end.

Definition comparePassword (B : Bcrypt) (this : Employee)
    (candidatePassword : string) : Result bool :=
  bcrypt_compare B candidatePassword (emp_password this).

(** Two libraries with the interface of bcrypt, to see what the model's own
    code adds to them: one stores the password behind a mark, the other
    first clips it to four characters. *)
Definition marking : Bcrypt :=
  {| bcrypt_hash := fun data salt => Ok (String "$" data);
     bcrypt_compare := fun data encrypted =>
                         Ok (String.eqb encrypted (String "$" data)) |}.

Definition clipping : Bcrypt :=
  {| bcrypt_hash := fun data salt => Ok (String "$" (substring 0 4 data));
     bcrypt_compare := fun data encrypted =>
                         Ok (String.eqb encrypted
                               (String "$" (substring 0 4 data))) |}.

(** ** Notions the statements use *)

(** The pair an employee is ranked by. *)
Definition load (db : DB) (e : Employee) : nat * nat :=
  (totalTasks db e, pendingTasks db e).

(** The lexicographic order on such pairs. *)
Definition lex_lt (a b : nat * nat) : Prop :=
  fst a < fst b \/ (fst a = fst b /\ snd a < snd b).

Definition lex_le (a b : nat * nat) : Prop :=
  fst a < fst b \/ (fst a = fst b /\ snd a <= snd b).

(** [e] stands at index [i] of [emps], no candidate has a smaller load, and
    every candidate before [i] has a strictly larger one. *)
Definition first_least (db : DB) (emps : list Employee) (i : nat)
    (e : Employee) : Prop :=
  nth_error emps i = Some e
  /\ (forall j e', nth_error emps j = Some e' -> lex_le (load db e) (load db e'))
  /\ (forall j e', j < i -> nth_error emps j = Some e' ->
                   lex_lt (load db e) (load db e')).

(** The loop variables once [e] has been selected. *)
Definition selected (db : DB) (e : Employee) : Selection :=
  {| selectedEmployee := Some e;
     minTaskCount := Count (totalTasks db e);
     minPendingTasks := Count (pendingTasks db e) |}.

(** The stage at which the extraction of a credential stops: no header
    (absent, or the empty string), no second segment once the header is cut
    at its spaces (missing, or empty), or a token that [jwt.verify]
    refuses. [None] when the token verifies. *)
Definition extraction_failure (J : JwtLibrary) (JWT_SECRET : option string)
    (clock : Z) (req : Request) : option AuthFailure :=
  match authorization req with
  | None => Some NoToken
  | Some h =>
      if String.eqb h "" then Some NoToken
      else
        match second_segment h with
        | None => Some MalformedHeader
        | Some token =>
            if String.eqb token "" then Some MalformedHeader
            else
              match jwt_verify J token JWT_SECRET clock with
              | Throw _ => Some InvalidToken
              | Ok _ => None
              end
        end
  end.

(** What an update must leave alone between a stored task [t] and the task
    [t'] that replaces it, for a request body [b]. *)
Definition kept (b : JsObject) (t t' : Task) : Prop :=
  task_id t' = task_id t
  /\ departmentId t' = departmentId t
  /\ assignedTo t' = assignedTo t
  /\ (truthy_field (b !! "title") = false -> title t' = title t)
  /\ (truthy_field (b !! "description") = false ->
      description t' = description t)
  /\ (truthy_field (b !! "status") = false -> status t' = status t)
  /\ (truthy_field (b !! "dueDate") = false -> dueDate t' = dueDate t).

(** ** Sample data *)

Module Sample.

Definition engineering : Department :=
  {| dept_id := 1%N; dept_name := "Engineering";
     dept_description := "Builds things"; dept_employees := [] |}.

Definition archive : Department :=
  {| dept_id := 2%N; dept_name := "Archive";
     dept_description := "Nobody works here"; dept_employees := [] |}.

Definition no_profile : Profile :=
  {| phone := None; address := None; position := None |}.

Definition worker (id : ObjectId) (name : string) : Employee :=
  {| emp_id := id; emp_name := name;
     emp_email := String.append name "@example.org";
     emp_password := "$2b$10$hash"; emp_role := "employee";
     emp_departmentId := 1%N; emp_profile := no_profile |}.

Definition E1 : Employee := worker 11%N "e1".
Definition E2 : Employee := worker 12%N "e2".

Definition job (id assignee : ObjectId) (st : string) : Task :=
  {| task_id := id; title := "job"; description := "work";
     departmentId := 1%N; assignedTo := assignee; status := st;
     dueDate := 0%Z |}.

(** E1 has two tasks, one of them pending; E2 has two completed tasks. *)
Definition db : DB :=
  {| departments := [engineering; archive];
     employees := [E1; E2];
     tasks := [job 101%N 11%N "pending"; job 102%N 11%N "completed";
               job 103%N 12%N "completed"; job 104%N 12%N "completed"] |}.

(** E1 has one task, E2 has three, none of E1's is finished. *)
Definition db2 : DB :=
  {| departments := [engineering; archive];
     employees := [E1; E2];
     tasks := [job 101%N 11%N "pending"; job 102%N 12%N "completed";
               job 103%N 12%N "completed"; job 104%N 12%N "completed"] |}.

Definition request (header : option string) (dep : string)
    (id : option ObjectId) (b : JsObject) : Request :=
  {| authorization := header; departmentName := dep; taskId := id;
     body := b; user := None |}.

Definition new_task_body : JsObject :=
  <["title" := JStr "Ship it"]> (<["description" := JStr "Release 1.0"]> ∅).

(** A [Date] constructor for the samples: numbers are timestamps. *)
Definition newDate (v : JValue) : option Z :=
  match v with
  | JNum n => Some n
  | _ => None
  end.

Definition key : option string := Some "s3cret".

(** The token that [generateToken] issues at clock 100 to E1, who is no
    admin, under the reference library. *)
Definition user_claims : JsObject := claims "11" "e1@example.org" false.

Definition user_token : string :=
  RefJwt.token_of "11" "e1@example.org" false 100 3700 "s3cret".

Definition bearer (token : string) : option string :=
  Some (String.append "Bearer " token).

(** A new title, and an empty status that the handler must pass over. *)
Definition update_body : JsObject :=
  <["title" := JStr "Ship it twice"]> (<["status" := JStr ""]> ∅).

End Sample.

(** ** The other task routes of Routes/departmentRoute.js *)

(** The filter [{ _id: taskId, departmentId: department._id }]. *)
Definition in_department (id dep : ObjectId) (t : Task) : bool :=
  N.eqb (task_id t) id && N.eqb (departmentId t) dep.

(** The handler of [GET /:departmentName/task/:taskId]. *)
Definition getTask (req : Request) (db : DB) : Response :=
  match findDepartmentByName db (departmentName req) with
  | Throw err => {| res_status := 500; res_body := ErrorBody err |}
  | Ok department =>
      match taskId req with
      | None => {| res_status := 500; res_body := ErrorBody CastError |}
      | Some id =>
          match findOne (in_department id (dept_id department)) (tasks db) with
          | None =>
              {| res_status := 404;
                 res_body := Message "Task not found in this department" |}
          | Some task => {| res_status := 200; res_body := TaskJson task |}
          end
      end
  end.

(** [Model.findOneAndDelete(q)] takes the first match out of the
    collection. *)
Fixpoint removeFirst {A : Type} (q : A -> bool) (docs : list A) : list A :=
  match docs with
  | [] => []
  | d :: rest => if q d then rest else d :: removeFirst q rest
  end.

Definition setTasks (ts : list Task) (db : DB) : DB :=
  {| departments := departments db; employees := employees db; tasks := ts |}.

(** The handler of [DELETE /:departmentName/task/:taskId]. *)
Definition deleteTask (req : Request) (db : DB) : Response * DB :=
  match findDepartmentByName db (departmentName req) with
  | Throw err => ({| res_status := 500; res_body := ErrorBody err |}, db)
  | Ok department =>
      match taskId req with
      | None => ({| res_status := 500; res_body := ErrorBody CastError |}, db)
      | Some id =>
          let q := in_department id (dept_id department) in
          match findOne q (tasks db) with
          | None =>
              ({| res_status := 404;
                  res_body := Message "Task not found in this department" |},
               db)
          | Some task =>
              ({| res_status := 200;
                  res_body := Message "Task deleted successfully" |},
               setTasks (removeFirst q (tasks db)) db)
          end
      end
  end.

(** ** Answers that carry more than a task *)

(** The employee as the admin listing shows it:
    [{ name, profile, departmentName }]. *)
Record EmployeeView : Type := {
  view_name : string;
  view_profile : Profile;
  view_departmentName : string
}.

(** What went wrong when a write to the store is refused: an error thrown
    on the way, or the unique index on a name. *)
Inductive Fault : Type :=
  | Thrown (e : Exn)
  | DuplicateKey.

Inductive Json : Type :=
  | Plain (b : ResBody)
  | Failure (message : string) (error : Fault)
  | TokenJson (token : string)
  | TaskList (ts : list Task)
  | EmployeeList (es : list Employee)
  | DepartmentJson (d : Department)
  | MessageDepartment (message : string) (d : Department)
  | ViewList (vs : list EmployeeView).

Record Reply : Type := {
  reply_status : nat;
  reply_body : Json
}.

(** [Task.find({ departmentId })] *)
Definition tasksOf (db : DB) (dep : ObjectId) : list Task :=
  List.filter (fun t => N.eqb (departmentId t) dep) (tasks db).

(** The handler of [GET /:departmentName/task]. *)
Definition listTasks (req : Request) (db : DB) : Reply :=
  match findDepartmentByName db (departmentName req) with
  | Throw err => {| reply_status := 500; reply_body := Plain (ErrorBody err) |}
  | Ok department =>
      let found := tasksOf db (dept_id department) in
      if Nat.eqb (length found) 0 then
        {| reply_status := 404;
           reply_body := Plain (Message "No tasks found in this department") |}
      else {| reply_status := 200; reply_body := TaskList found |}
  end.

(** The handler of [GET /:departmentName/employee]. *)
Definition listEmployees (req : Request) (db : DB) : Reply :=
  match findDepartmentByName db (departmentName req) with
  | Throw err =>
      {| reply_status := 500;
         reply_body := Plain (MessageError "Server error" err) |}
  | Ok department =>
      let found := employeesOf db (dept_id department) in
      if Nat.eqb (length found) 0 then
        {| reply_status := 404;
           reply_body :=
             Plain (Message "No employees found in this department") |}
      else {| reply_status := 200; reply_body := EmployeeList found |}
  end.

(** ** Routes/employeeRoute.js *)



(** ** Routes/auth.js *)

(** [person.isAdmin]: the schema of models/employee.js declares no such
    path, so the document has no such property. *)
Definition person_isAdmin (person : Employee) : option JValue := None.

(** [a || b] *)
Definition js_or (a : option JValue) (b : JValue) : JValue :=
  match a with
  | Some v => if truthy v then v else b
  | None => b
  end.

(** The payload [{ userId: person._id, email: person.email,
    isAdmin: person.isAdmin || false }]; [idString] prints an ObjectId the
    way the token carries it. *)
Definition login_payload (idString : ObjectId -> string) (person : Employee)
  : JsObject :=
  <["userId" := JStr (idString (emp_id person))]>
    (<["email" := JStr (emp_email person)]>
       (<["isAdmin" := js_or (person_isAdmin person) (JBool false)]> ∅)).

(** The handler of [POST /login], for a body whose [email] and [password]
    are strings. *)
Definition login (B : Bcrypt) (J : JwtLibrary) (JWT_SECRET : option string)
    (clock : Z) (idString : ObjectId -> string) (email password : string)
    (db : DB) : Reply :=
  match findOne (fun e => String.eqb (emp_email e) email) (employees db) with
  | None =>
      {| reply_status := 404; reply_body := Plain (Message "Invalid email id") |}
  | Some person =>
      match comparePassword B person password with
      | Throw err =>
          {| reply_status := 500;
             reply_body := Plain (MessageError "Server error" err) |}
      | Ok isMatchPassword =>
          if negb isMatchPassword then
            {| reply_status := 404;
               reply_body := Plain (Message "Invalid username or password") |}
          else
            match generateToken J JWT_SECRET clock
                    (login_payload idString person) with
            | Throw err =>
                {| reply_status := 500;
                   reply_body := Plain (MessageError "Server error" err) |}
            | Ok token => {| reply_status := 200; reply_body := TokenJson token |}
            end
      end
  end.

(** ** Routes/admin.js: departments *)

Definition setDepartments (ds : list Department) (db : DB) : DB :=
  {| departments := ds; employees := employees db; tasks := tasks db |}.

Definition named (name : string) (d : Department) : bool :=
  String.eqb (dept_name d) name.

(** The handler of [POST /department]: [save] validates the two required
    paths, and the unique index refuses a name that is taken. *)
Definition createDepartment (newId : ObjectId) (req : Request) (db : DB)
  : Reply * DB :=
  match requiredString (body req !! "name") with
  | Throw err =>
      ({| reply_status := 500;
          reply_body := Failure "Server error" (Thrown err) |}, db)
  | Ok name =>
      match requiredString (body req !! "description") with
      | Throw err =>
          ({| reply_status := 500;
              reply_body := Failure "Server error" (Thrown err) |}, db)
      | Ok description =>
          if existsb (named name) (departments db) then
            ({| reply_status := 500;
                reply_body := Failure "Server error" DuplicateKey |}, db)
          else
            let savedDepartment :=
              {| dept_id := newId; dept_name := name;
                 dept_description := description; dept_employees := [] |} in
            ({| reply_status := 201;
                reply_body := MessageDepartment "Successfully saved department"
                                savedDepartment |},
             setDepartments (departments db ++ [savedDepartment]) db)
      end
  end.

(** The handler of [GET /department/:departmentName]. *)
Definition getDepartment (req : Request) (db : DB) : Reply :=
  match findOne (named (departmentName req)) (departments db) with
  | None =>
      {| reply_status := 404;
         reply_body := Plain (Message "Department not found") |}
  | Some department =>
      {| reply_status := 200; reply_body := DepartmentJson department |}
  end.

(** [updateData] applied to a department: [name] and [description] are the
    only paths it can carry. *)
Definition applyDepartmentUpdate (name description : Assigned string)
    (d : Department) : Department :=
  {| dept_id := dept_id d;
     dept_name := assigned_or (dept_name d) name;
     dept_description := assigned_or (dept_description d) description;
     dept_employees := dept_employees d |}.

(** [Model.findOneAndUpdate(q, update)] rewrites the first match. *)
Fixpoint replaceFirst {A : Type} (q : A -> bool) (f : A -> A) (docs : list A)
  : list A :=
  match docs with
  | [] => []
  | d :: rest => if q d then f d :: rest else d :: replaceFirst q f rest
  end.

(** The handler of [PUT /department/:departmentName]. The update is cast
    before the query runs; when it carries a name, the unique index refuses
    one that another department bears. *)
Definition updateDepartment (req : Request) (db : DB) : Reply * DB :=
  let name := assign_if castString (body req !! "name") in
  let description := assign_if castString (body req !! "description") in
  let q := named (departmentName req) in
  if negb (castable name && castable description) then
    ({| reply_status := 500;
        reply_body := Failure "Error updating department" (Thrown CastError) |},
     db)
  else
    match findOne q (departments db) with
    | None =>
        ({| reply_status := 404;
            reply_body := Plain (Message "Department not found") |}, db)
    | Some department =>
        let updatedDepartment :=
          applyDepartmentUpdate name description department in
        if match name with
           | Changed n => existsb (named n) (removeFirst q (departments db))
           | _ => false
           end
        then
          ({| reply_status := 500;
              reply_body := Failure "Error updating department" DuplicateKey |},
           db)
        else
          ({| reply_status := 200;
              reply_body := MessageDepartment "Department updated successfully"
                              updatedDepartment |},
           setDepartments
             (replaceFirst q (applyDepartmentUpdate name description)
                (departments db)) db)
    end.

(** The handler of [DELETE /department/:departmentName]. *)
Definition deleteDepartment (req : Request) (db : DB) : Reply * DB :=
  let q := named (departmentName req) in
  match findOne q (departments db) with
  | None =>
      ({| reply_status := 404;
          reply_body := Plain (Message "Department not found") |}, db)
  | Some deletedDepartment =>
      ({| reply_status := 200;
          reply_body := MessageDepartment "Department deleted successfully"
                          deletedDepartment |},
       setDepartments (removeFirst q (departments db)) db)
  end.

(** ** Routes/admin.js: the employee listing *)

(** [populate({ path: 'departmentId', select: 'name' })]: the department
    the employee refers to, or [null]. *)
Definition populated (db : DB) (e : Employee) : option Department :=
  findOne (fun d => N.eqb (dept_id d) (emp_departmentId e)) (departments db).

(** [{ name, profile, departmentName: employee.departmentId ?
       employee.departmentId.name : 'N/A' }] *)
Definition viewOf (db : DB) (e : Employee) : EmployeeView :=
  {| view_name := emp_name e;
     view_profile := emp_profile e;
     view_departmentName :=
       match populated db e with
       | Some department => dept_name department
       | None => "N/A"
       end |}.

(** The handler of [GET /employee]. *)
Definition listEmployeeViews (db : DB) : Reply :=
  if Nat.eqb (length (employees db)) 0 then
    {| reply_status := 404; reply_body := Plain (Message "No employees found") |}
  else
    {| reply_status := 200;
       reply_body := ViewList (map (viewOf db) (employees db)) |}.

(** ** Notions the further statements use *)

(** No two candidates of the department differ by more than one task. *)
Definition balanced (db : DB) (dep : ObjectId) : Prop :=
  forall e1 e2,
    In e1 (employeesOf db dep) -> In e2 (employeesOf db dep) ->
    totalTasks db e1 <= totalTasks db e2 + 1.

(** What the task schema demands of a stored task. *)
Definition well_formed (t : Task) : bool :=
  negb (String.eqb (title t) "") && negb (String.eqb (description t) "")
  && in_enum (status t).

(** A header [<scheme> <token> <rest>]. *)
Definition header_of (scheme token rest : string) : string :=
  String.append scheme (String " " (String.append token (String " " rest))).

(** A creation request as the handler receives it: the clock reading, the
    [_id] for the new document, and the request. *)
Record Creation : Type := {
  creation_now : Z;
  creation_id : ObjectId;
  creation_request : Request
}.

(** The store after a series of creation requests, served one after the
    other. *)
Definition createTasks (calls : list Creation) (db : DB) : DB :=
  fold_left
    (fun store c =>
       snd (createTask (creation_now c) (creation_id c) (creation_request c)
              store))
    calls db.

(** More sample data. *)
Module Cases.

Definition idString (id : ObjectId) : string :=
  NilZero.string_of_uint (N.to_uint id).

(** A library in which a password matches the hash stored for E1. *)
Definition plain : Bcrypt :=
  {| bcrypt_hash := fun data salt => Ok (String.append "$2b$10$" data);
     bcrypt_compare := fun data encrypted =>
                         Ok (String.eqb encrypted
                               (String.append "$2b$10$" data)) |}.

Definition sales_body : JsObject :=
  <["name" := JStr "Sales"]> (<["description" := JStr "Sells things"]> ∅).

Definition rename_body : JsObject := <["name" := JStr "Platform"]> ∅.

Definition complete_body : JsObject := <["status" := JStr "completed"]> ∅.

(** E1 and E2 with one task each. *)
Definition even : DB :=
  {| departments := [Sample.engineering; Sample.archive];
     employees := [Sample.E1; Sample.E2];
     tasks := [Sample.job 101%N 11%N "pending";
               Sample.job 102%N 12%N "completed"] |}.

(** A token library whose every token decodes to claims in which
    [isAdmin] is the string "no". *)
Definition stringly : JwtLibrary :=
  {| jwt_sign := fun payload key expiresIn clock => Throw (JsError "unused");
     jwt_verify := fun token key clock => Ok (<["isAdmin" := JStr "no"]> ∅) |}.

End Cases.

(** ** The clock of the creation route in the zone of the server *)

(** A time zone: the offset from UTC, in milliseconds, that is in force at
    an instant. *)
Definition Zone : Type := Z -> Z.

(** luxon's resolution of a wall-clock time [localTS] to an instant, given
    the offset [o] that was in force where the computation started: the
    offset is tried, corrected once if the zone disagrees, and a time that
    the zone skips is moved past the gap. *)
Definition fixOffset (zone : Zone) (localTS o : Z) : Z :=
  let utcGuess := (localTS - o)%Z in
  let o2 := zone utcGuess in
  if (o =? o2)%Z then utcGuess
  else
    let utcGuess' := (utcGuess - (o2 - o))%Z in
    let o3 := zone utcGuess' in
    if (o2 =? o3)%Z then utcGuess'
    else (localTS - Z.min o2 o3)%Z.

(** [DateTime.now().plus({ days }).toJSDate()] in a zone: the days are
    added to the wall-clock time, and the result is resolved to an
    instant. *)
Definition luxon_plus_days (zone : Zone) (now days : Z) : Z :=
  let o := zone now in
  fixOffset zone (now + o + days * MS_PER_DAY)%Z o.

(** The handler of [POST /:departmentName/task] on a server in the zone
    [zone]. *)
Definition createTaskIn (zone : Zone) (now : Z) (newId : ObjectId)
    (req : Request) (db : DB) : Response * DB :=
  let title_v := body req !! "title" in
  let description_v := body req !! "description" in
  let due := luxon_plus_days zone now 7 in
  let caught (err : Exn) :=
    match err with
    | JsError m =>
        if String.eqb m "Department not found"
        then ({| res_status := 404; res_body := Message m |}, db)
        else ({| res_status := 500; res_body := ErrorBody err |}, db)
    | _ => ({| res_status := 500; res_body := ErrorBody err |}, db)
    end in
  match findDepartmentByName db (departmentName req) with
  | Throw err => caught err
  | Ok department =>
      match selectEmployee db (dept_id department) with
      | None =>
          ({| res_status := 500; res_body := Message "Unable to assign task" |},
           db)
      | Some selected =>
          match newTask newId title_v description_v
                  (dept_id department) (emp_id selected) due with
          | Throw err => caught err
          | Ok task =>
              ({| res_status := 201; res_body := TaskJson task |},
               insertTask task db)
          end
      end
  end.

(** Two zones to run the handler in. *)
Module Zones.

Definition HOUR : Z := 3600000.

(** UTC. *)
Definition utc : Zone := fun instant => 0%Z.

(** A zone five hours behind UTC that moves its clocks one hour forward at
    the instant [1000000000]. *)
Definition spring : Zone :=
  fun instant =>
    if (instant <? 1000000000)%Z then (-5 * HOUR)%Z else (-4 * HOUR)%Z.

(** Three days before the clocks move. *)
Definition before_change : Z := (1000000000 - 3 * MS_PER_DAY)%Z.

End Zones.

(** * Properties *)

(** ** Counting *)

Lemma pendingTasks_le_totalTasks db e : pendingTasks db e <= totalTasks db e.
Proof.
  unfold pendingTasks, totalTasks, countDocuments.
  induction (tasks db) as [|t ts IH]; simpl; [lia |].
  destruct (N.eqb (assignedTo t) (emp_id e)); simpl.
  - destruct (is_open (status t)); simpl; lia.
  - exact IH.
Qed.

(** ** The selection loop *)

Lemma select_loop_snoc db l x :
  select_loop db (l ++ [x]) = select_step db (select_loop db l) x.
Proof. unfold select_loop. rewrite fold_left_app. reflexivity. Qed.

Lemma select_step_selected db e x :
  select_step db (selected db e) x
  = if Nat.ltb (totalTasks db x) (totalTasks db e)
       || (Nat.eqb (totalTasks db x) (totalTasks db e)
           && Nat.ltb (pendingTasks db x) (pendingTasks db e))
    then selected db x else selected db e.
Proof. reflexivity. Qed.

Lemma select_step_first db x : select_step db selection0 x = selected db x.
Proof. reflexivity. Qed.

Lemma lex_lt_le a b : lex_lt a b -> lex_le a b.
Proof. unfold lex_lt, lex_le. lia. Qed.

Lemma lex_le_refl a : lex_le a a.
Proof. unfold lex_le. lia. Qed.

Lemma lex_lt_le_trans a b c : lex_lt a b -> lex_le b c -> lex_lt a c.
Proof. unfold lex_lt, lex_le. lia. Qed.

Lemma lex_le_trans a b c : lex_le a b -> lex_le b c -> lex_le a c.
Proof. unfold lex_le. lia. Qed.

(** The test of the loop body is the strict lexicographic comparison. *)
Lemma step_test_lt db x e :
  Nat.ltb (totalTasks db x) (totalTasks db e)
  || (Nat.eqb (totalTasks db x) (totalTasks db e)
      && Nat.ltb (pendingTasks db x) (pendingTasks db e)) = true
  <-> lex_lt (load db x) (load db e).
Proof.
  unfold lex_lt, load; simpl.
  rewrite orb_true_iff, andb_true_iff, !Nat.ltb_lt, Nat.eqb_eq. reflexivity.
Qed.

Lemma step_test_ge db x e :
  Nat.ltb (totalTasks db x) (totalTasks db e)
  || (Nat.eqb (totalTasks db x) (totalTasks db e)
      && Nat.ltb (pendingTasks db x) (pendingTasks db e)) = false
  -> lex_le (load db e) (load db x).
Proof.
  unfold lex_le, load; simpl.
  rewrite orb_false_iff, andb_false_iff, !Nat.ltb_ge, Nat.eqb_neq. lia.
Qed.

(** After any non-empty prefix the loop holds the first least-loaded
    employee of that prefix. *)
Lemma select_loop_first_least db l :
  l <> [] ->
  exists i e, first_least db l i e /\ select_loop db l = selected db e.
Proof.
  induction l as [|x l IH] using rev_ind; [congruence | intros _].
  rewrite select_loop_snoc.
  destruct l as [|y l'].
  - exists 0, x. split; [| reflexivity].
    repeat split.
    + intros [|j] e' H; simpl in H.
      * injection H as <-. apply lex_le_refl.
      * destruct j; discriminate.
    + intros j e' Hj. lia.
  - destruct IH as (i & e & (Hi & Hall & Hbefore) & ->); [discriminate |].
    set (l := y :: l') in *.
    assert (Hlen : i < length l) by (apply nth_error_Some; congruence).
    rewrite select_step_selected.
    destruct (_ || _) eqn:Htest.
    + apply step_test_lt in Htest.
      exists (length l), x. split; [| reflexivity].
      repeat split.
      * rewrite nth_error_app2, Nat.sub_diag by lia. reflexivity.
      * intros j e' H.
        destruct (Nat.lt_ge_cases j (length l)) as [Hlt | Hge].
        -- rewrite nth_error_app1 in H by exact Hlt.
           apply lex_lt_le. eapply lex_lt_le_trans; [exact Htest |].
           eapply Hall; exact H.
        -- rewrite nth_error_app2 in H by exact Hge.
           destruct (j - length l) as [|k]; simpl in H.
           ++ injection H as <-. apply lex_le_refl.
           ++ destruct k; discriminate.
      * intros j e' Hlt H.
        rewrite nth_error_app1 in H by exact Hlt.
        eapply lex_lt_le_trans; [exact Htest |]. eapply Hall; exact H.
    + apply step_test_ge in Htest.
      exists i, e. split; [| reflexivity].
      repeat split.
      * rewrite nth_error_app1 by exact Hlen. exact Hi.
      * intros j e' H.
        destruct (Nat.lt_ge_cases j (length l)) as [Hlt | Hge].
        -- rewrite nth_error_app1 in H by exact Hlt. eapply Hall; exact H.
        -- rewrite nth_error_app2 in H by exact Hge.
           destruct (j - length l) as [|k]; simpl in H.
           ++ injection H as <-. exact Htest.
           ++ destruct k; discriminate.
      * intros j e' Hlt H.
        rewrite nth_error_app1 in H by lia.
        eapply Hbefore; [exact Hlt | exact H].
Qed.

Lemma nonempty_length {A : Type} (l : list A) :
  l <> [] -> Nat.eqb (length l) 0 = false.
Proof. destruct l; [congruence | reflexivity]. Qed.

Lemma selectEmployee_path_nonempty db dep :
  employeesOf db dep <> [] ->
  exists i e,
    first_least db (employeesOf db dep) i e
    /\ select_loop db (employeesOf db dep) = selected db e
    /\ selectEmployee_path db dep = (Some e, FromLoop).
Proof.
  intros Hne.
  destruct (select_loop_first_least db _ Hne) as (i & e & Hfl & Hloop).
  exists i, e. repeat split; try apply Hfl; [exact Hloop |].
  unfold selectEmployee_path.
  rewrite (nonempty_length _ Hne), Hloop. reflexivity.
Qed.

Lemma selectEmployee_empty db dep :
  employeesOf db dep = [] -> selectEmployee db dep = None.
Proof.
  intros H. unfold selectEmployee, selectEmployee_path. rewrite H. reflexivity.
Qed.

Lemma selectEmployee_in_department db dep e :
  selectEmployee db dep = Some e ->
  In e (employees db) /\ emp_departmentId e = dep.
Proof.
  intros H.
  destruct (employeesOf db dep) as [|x l] eqn:Hemps.
  - rewrite selectEmployee_empty in H by exact Hemps. discriminate.
  - assert (Hne : employeesOf db dep <> []) by (rewrite Hemps; discriminate).
    destruct (selectEmployee_path_nonempty db dep Hne)
      as (i & e' & (Hi & _) & _ & Hpath).
    unfold selectEmployee in H. rewrite Hpath in H. injection H as ->.
    apply nth_error_In in Hi. unfold employeesOf in Hi.
    apply filter_In in Hi. destruct Hi as [Hin Hdep].
    split; [exact Hin | apply N.eqb_eq; exact Hdep].
Qed.

(** C1: for a department with at least one employee, [selectEmployee]
    returns the first employee, in the order in which the candidates are
    iterated, whose pair (total tasks, pending or in-progress tasks) is
    least in the lexicographic order: least total first, ties broken by the
    least pending count, remaining ties kept by the earliest candidate. *)
Theorem selectEmployee_first_least db dep :
  employeesOf db dep <> [] ->
  exists i e,
    selectEmployee db dep = Some e
    /\ first_least db (employeesOf db dep) i e.
Proof.
  intros Hne.
  destruct (selectEmployee_path_nonempty db dep Hne) as (i & e & Hfl & _ & Hp).
  exists i, e. split; [| exact Hfl].
  unfold selectEmployee. rewrite Hp. reflexivity.
Qed.

Lemma selectEmployee_first_least_sample :
  employeesOf Sample.db 1%N <> []
  /\ exists i e,
       selectEmployee Sample.db 1%N = Some e
       /\ first_least Sample.db (employeesOf Sample.db 1%N) i e.
Proof.
  assert (H : employeesOf Sample.db 1%N <> []) by (vm_compute; discriminate).
  split; [exact H | exact (selectEmployee_first_least Sample.db 1%N H)].
Defined.

(** The two scenarios of the specification: a tie on the total broken by
    the pending count, and a smaller total winning whatever is pending. *)
Example select_tie_broken_by_pending :
  load Sample.db Sample.E1 = (2, 1)
  /\ load Sample.db Sample.E2 = (2, 0)
  /\ selectEmployee Sample.db 1%N = Some Sample.E2.
Proof. repeat split. Qed.

Example select_least_total :
  load Sample.db2 Sample.E1 = (1, 1)
  /\ load Sample.db2 Sample.E2 = (3, 0)
  /\ selectEmployee Sample.db2 1%N = Some Sample.E1.
Proof. repeat split. Qed.

(** C7: [selectEmployee] never returns through its fallback branch; when the
    candidate list is not empty the loop itself has selected an employee by
    the time it ends, and the employee returned is one of the candidates. *)
Theorem selectEmployee_fallback_unreachable db dep :
  snd (selectEmployee_path db dep) <> Fallback
  /\ (employeesOf db dep <> [] ->
      exists e,
        selectedEmployee (select_loop db (employeesOf db dep)) = Some e
        /\ selectEmployee_path db dep = (Some e, FromLoop)
        /\ selectEmployee db dep = Some e
        /\ In e (employeesOf db dep)).
Proof.
  assert (Hne : employeesOf db dep <> [] ->
      exists e,
        selectedEmployee (select_loop db (employeesOf db dep)) = Some e
        /\ selectEmployee_path db dep = (Some e, FromLoop)
        /\ selectEmployee db dep = Some e
        /\ In e (employeesOf db dep)).
  { intros Hne.
    destruct (selectEmployee_path_nonempty db dep Hne)
      as (i & e & (Hi & _) & Hloop & Hp).
    exists e. repeat split.
    - rewrite Hloop. reflexivity.
    - exact Hp.
    - unfold selectEmployee. rewrite Hp. reflexivity.
    - eapply nth_error_In. exact Hi. }
  split; [| exact Hne].
  destruct (employeesOf db dep) as [|x l] eqn:Hemps.
  - unfold selectEmployee_path. rewrite Hemps. simpl. discriminate.
  - destruct Hne as (e & _ & Hp & _); [discriminate |].
    rewrite Hp. simpl. discriminate.
Qed.

Lemma selectEmployee_fallback_unreachable_sample :
  employeesOf Sample.db 1%N <> []
  /\ exists e,
       selectedEmployee (select_loop Sample.db (employeesOf Sample.db 1%N))
       = Some e
       /\ selectEmployee_path Sample.db 1%N = (Some e, FromLoop)
       /\ selectEmployee Sample.db 1%N = Some e
       /\ In e (employeesOf Sample.db 1%N).
Proof.
  assert (H : employeesOf Sample.db 1%N <> []) by (vm_compute; discriminate).
  split; [exact H |].
  exact (proj2 (selectEmployee_fallback_unreachable Sample.db 1%N) H).
Defined.

(** ** Task creation *)

Lemma selectEmployee_none db dep :
  selectEmployee db dep = None <-> employeesOf db dep = [].
Proof.
  split; [| apply selectEmployee_empty].
  intros H.
  destruct (employeesOf db dep) as [|x l] eqn:Hemps; [reflexivity | exfalso].
  assert (Hne : employeesOf db dep <> []) by (rewrite Hemps; discriminate).
  destruct (selectEmployee_path_nonempty db dep Hne) as (i & e & _ & _ & Hp).
  unfold selectEmployee in H. rewrite Hp in H. discriminate.
Qed.

(** C4: [selectEmployee] returns [null] exactly when the department has no
    employee, and the creation handler then answers with status 500
    ("Unable to assign task") and leaves the store as it was: no task is
    created. *)
Theorem selectEmployee_none_iff_no_employees db dep :
  (selectEmployee db dep = None <-> employeesOf db dep = [])
  /\ (forall now newId req department,
        findDepartmentByName db (departmentName req) = Ok department ->
        dept_id department = dep ->
        employeesOf db dep = [] ->
        createTask now newId req db
        = ({| res_status := 500;
              res_body := Message "Unable to assign task" |}, db)).
Proof.
  split; [apply selectEmployee_none |].
  intros now newId req department Hdep <- Hemps.
  unfold createTask. rewrite Hdep.
  rewrite (selectEmployee_empty _ _ Hemps). reflexivity.
Qed.

Lemma selectEmployee_none_iff_no_employees_sample :
  let req := Sample.request None "Archive" None Sample.new_task_body in
  findDepartmentByName Sample.db (departmentName req) = Ok Sample.archive
  /\ employeesOf Sample.db 2%N = []
  /\ selectEmployee Sample.db 2%N = None
  /\ createTask 1000 500%N req Sample.db
     = ({| res_status := 500;
           res_body := Message "Unable to assign task" |}, Sample.db).
Proof.
  intros req.
  assert (Hd : findDepartmentByName Sample.db (departmentName req)
               = Ok Sample.archive) by reflexivity.
  assert (He : employeesOf Sample.db 2%N = []) by reflexivity.
  destruct (selectEmployee_none_iff_no_employees Sample.db 2%N) as [Hiff Hh].
  split; [exact Hd |]. split; [exact He |]. split.
  - apply Hiff. exact He.
  - exact (Hh 1000%Z 500%N req Sample.archive Hd eq_refl He).
Defined.

Lemma findDepartmentByName_found db name department :
  findDepartmentByName db name = Ok department ->
  In department (departments db) /\ dept_name department = name.
Proof.
  unfold findDepartmentByName, findOne.
  destruct (find _ (departments db)) as [d|] eqn:Hfind; [| discriminate].
  intros [= <-]. apply find_some in Hfind. destruct Hfind as [Hin Hname].
  split; [exact Hin | apply String.eqb_eq; exact Hname].
Qed.

(** A task document in the answer means that every step of the handler
    went through. *)
Lemma createTask_created now newId req db res db' task :
  createTask now newId req db = (res, db') ->
  res_body res = TaskJson task ->
  exists department employee t d,
    findDepartmentByName db (departmentName req) = Ok department
    /\ selectEmployee db (dept_id department) = Some employee
    /\ requiredString (body req !! "title") = Ok t
    /\ requiredString (body req !! "description") = Ok d
    /\ task = {| task_id := newId; title := t; description := d;
                 departmentId := dept_id department;
                 assignedTo := emp_id employee;
                 status := "pending";
                 dueDate := plus_days now 7 |}
    /\ res = {| res_status := 201; res_body := TaskJson task |}
    /\ db' = insertTask task db.
Proof.
  unfold createTask, newTask.
  destruct (findDepartmentByName db (departmentName req))
    as [department | err] eqn:Hdep.
  - destruct (selectEmployee db (dept_id department)) as [employee|] eqn:Hsel.
    + destruct (requiredString (body req !! "title")) as [t | e1] eqn:Ht.
      * destruct (requiredString (body req !! "description"))
          as [d | e2] eqn:Hd.
        -- intros [= <- <-] [= <-].
           exists department, employee, t, d. repeat split; assumption.
        -- destruct e2 as [m | |]; [destruct (String.eqb m _) |..];
             intros [= <- _] Hb; discriminate Hb.
      * destruct e1 as [m | |]; [destruct (String.eqb m _) |..];
          intros [= <- _] Hb; discriminate Hb.
    + intros [= <- _] Hb. discriminate Hb.
  - destruct err as [m | |]; [destruct (String.eqb m _) |..];
      intros [= <- _] Hb; discriminate Hb.
Qed.

(** The handler does create the task once the department exists, has an
    employee, and the body carries a title and a description. *)
Lemma createTask_succeeds now newId req db department employee t d :
  findDepartmentByName db (departmentName req) = Ok department ->
  selectEmployee db (dept_id department) = Some employee ->
  requiredString (body req !! "title") = Ok t ->
  requiredString (body req !! "description") = Ok d ->
  let task := {| task_id := newId; title := t; description := d;
                 departmentId := dept_id department;
                 assignedTo := emp_id employee;
                 status := "pending";
                 dueDate := plus_days now 7 |} in
  createTask now newId req db
  = ({| res_status := 201; res_body := TaskJson task |}, insertTask task db).
Proof.
  intros Hdep Hsel Ht Hd task. unfold createTask, newTask.
  rewrite Hdep, Hsel, Ht, Hd. reflexivity.
Qed.

(** Where the offset of the zone is the same at both ends, adding days to
    the wall-clock time adds that many times 24 hours. *)
Lemma luxon_plus_days_same_offset zone now days :
  zone (now + days * MS_PER_DAY)%Z = zone now ->
  luxon_plus_days zone now days = (now + days * MS_PER_DAY)%Z.
Proof.
  intros Hsame. unfold luxon_plus_days, fixOffset. cbv zeta.
  replace (now + zone now + days * MS_PER_DAY - zone now)%Z
    with (now + days * MS_PER_DAY)%Z by lia.
  rewrite Hsame, Z.eqb_refl. reflexivity.
Qed.

(** The handler in a zone is the handler of a zone with a constant offset,
    run at the clock reading seven times 24 hours before the due date that
    the zone gives: what is proved of [createTask] at every clock reading
    holds of [createTaskIn] in every zone. *)
Lemma createTaskIn_as_createTask zone now newId req db :
  createTaskIn zone now newId req db
  = createTask (luxon_plus_days zone now 7 - 7 * MS_PER_DAY) newId req db.
Proof.
  unfold createTaskIn, createTask.
  replace (plus_days (luxon_plus_days zone now 7 - 7 * MS_PER_DAY) 7)
    with (luxon_plus_days zone now 7) by (unfold plus_days; lia).
  reflexivity.
Qed.

(** C5, as the code has it: a task that the creation handler produces is
    due seven calendar days after the clock reading the handler took, in the
    zone of the server, whatever the request body says about a due date:
    that is exactly seven times 24 hours (7 * 86400000 ms) later whenever
    the zone has the same offset at both instants. Its [departmentId] is the
    id of the department that bears the name given in the path. *)
Theorem createTaskIn_dueDate_departmentId
    zone now newId req db res db' task :
  createTaskIn zone now newId req db = (res, db') ->
  res_body res = TaskJson task ->
  dueDate task = luxon_plus_days zone now 7
  /\ (zone (now + 7 * 86400000)%Z = zone now ->
      dueDate task = (now + 7 * 86400000)%Z)
  /\ exists department,
       findDepartmentByName db (departmentName req) = Ok department
       /\ In department (departments db)
       /\ dept_name department = departmentName req
       /\ departmentId task = dept_id department
       /\ res_status res = 201
       /\ tasks db' = tasks db ++ [task].
Proof.
  intros Hrun Hbody. rewrite createTaskIn_as_createTask in Hrun.
  destruct (createTask_created _ _ _ _ _ _ _ Hrun Hbody)
    as (department & employee & t & d & Hdep & _ & _ & _ & -> & -> & ->).
  assert (Hdue : plus_days (luxon_plus_days zone now 7 - 7 * MS_PER_DAY) 7
                 = luxon_plus_days zone now 7) by (unfold plus_days; lia).
  cbn [dueDate]. rewrite Hdue. split; [reflexivity |]. split.
  - intros Hsame. apply (luxon_plus_days_same_offset zone now 7). exact Hsame.
  - exists department.
    destruct (findDepartmentByName_found _ _ _ Hdep) as [Hin Hname].
    repeat split; assumption.
Qed.

Lemma createTaskIn_dueDate_departmentId_sample :
  let req := Sample.request None "Engineering" None Sample.new_task_body in
  let task := {| task_id := 500%N; title := "Ship it";
                 description := "Release 1.0"; departmentId := 1%N;
                 assignedTo := 12%N; status := "pending";
                 dueDate := 604801000%Z |} in
  createTaskIn Zones.utc 1000 500%N req Sample.db
  = ({| res_status := 201; res_body := TaskJson task |},
     insertTask task Sample.db)
  /\ Zones.utc (1000 + 7 * 86400000)%Z = Zones.utc 1000%Z
  /\ dueDate task = (1000 + 7 * 86400000)%Z
  /\ exists department,
       findDepartmentByName Sample.db (departmentName req) = Ok department
       /\ In department (departments Sample.db)
       /\ dept_name department = departmentName req
       /\ departmentId task = dept_id department
       /\ res_status {| res_status := 201; res_body := TaskJson task |} = 201
       /\ tasks (insertTask task Sample.db) = tasks Sample.db ++ [task].
Proof.
  intros req task.
  assert (Hrun : createTaskIn Zones.utc 1000 500%N req Sample.db
                 = ({| res_status := 201; res_body := TaskJson task |},
                    insertTask task Sample.db)) by (vm_compute; reflexivity).
  assert (Hzone : Zones.utc (1000 + 7 * 86400000)%Z = Zones.utc 1000%Z)
    by reflexivity.
  destruct (createTaskIn_dueDate_departmentId _ _ _ _ _ _ _ task Hrun eq_refl)
    as (_ & Hdue & Hdep).
  split; [exact Hrun |]. split; [exact Hzone |].
  split; [exact (Hdue Hzone) | exact Hdep].
Defined.

(** C5 as stated fails where the clocks of the zone move within the week: a
    task created three days before they are put forward by one hour is due
    seven calendar days later at the same wall-clock time, which is one hour
    short of seven times 24 hours. *)
Lemma createTaskIn_due_an_hour_short_across_clock_change :
  createTaskIn Zones.spring 740800000 500%N
    (Sample.request None "Engineering" None Sample.new_task_body) Sample.db
  = ({| res_status := 201;
        res_body :=
          TaskJson {| task_id := 500%N; title := "Ship it";
                      description := "Release 1.0"; departmentId := 1%N;
                      assignedTo := 12%N; status := "pending";
                      dueDate := 1342000000%Z |} |},
     insertTask {| task_id := 500%N; title := "Ship it";
                   description := "Release 1.0"; departmentId := 1%N;
                   assignedTo := 12%N; status := "pending";
                   dueDate := 1342000000%Z |} Sample.db)
  /\ (1342000000 = 740800000 + 7 * 86400000 - 3600000)%Z
  /\ (1342000000 <> 740800000 + 7 * 86400000)%Z
  /\ (Zones.spring 740800000 = -5 * 3600000)%Z
  /\ (Zones.spring 1342000000 = -4 * 3600000)%Z.
Proof.
  split; [vm_compute; reflexivity |]. split; [reflexivity |].
  split; [discriminate |]. split; reflexivity.
Qed.

Lemma find_by_id_unique (emps : list Employee) e :
  List.NoDup (map emp_id emps) ->
  In e emps ->
  findOne (fun x => N.eqb (emp_id x) (emp_id e)) emps = Some e.
Proof.
  unfold findOne.
  induction emps as [|x l IH]; simpl; [intros _ [] |].
  intros Hnd [-> | Hin].
  - rewrite N.eqb_refl. reflexivity.
  - apply NoDup_cons_iff in Hnd. destruct Hnd as [Hx Hnd].
    destruct (N.eqb (emp_id x) (emp_id e)) eqn:Heq.
    + apply N.eqb_eq in Heq. exfalso. apply Hx. rewrite Heq.
      apply in_map. exact Hin.
    + apply IH; assumption.
Qed.

(** C6: a task that the creation handler produces is assigned to an
    employee of the store whose department is the task's department; with
    ids unique in the employee collection, that employee is the one the
    task's [assignedTo] refers to. *)
Theorem createTask_department_matches_assignee
    now newId req db res db' task :
  createTask now newId req db = (res, db') ->
  res_body res = TaskJson task ->
  (exists e,
     In e (employees db')
     /\ emp_id e = assignedTo task
     /\ emp_departmentId e = departmentId task)
  /\ (List.NoDup (map emp_id (employees db')) ->
      exists e,
        findEmployeeById db' (assignedTo task) = Some e
        /\ emp_departmentId e = departmentId task).
Proof.
  intros Hrun Hbody.
  destruct (createTask_created _ _ _ _ _ _ _ Hrun Hbody)
    as (department & employee & t & d & _ & Hsel & _ & _ & -> & _ & ->).
  destruct (selectEmployee_in_department _ _ _ Hsel) as [Hin Hdep].
  simpl. split.
  - exists employee. repeat split; assumption.
  - intros Hnd. exists employee. split; [| exact Hdep].
    unfold findEmployeeById. simpl. apply find_by_id_unique; assumption.
Qed.

Lemma createTask_department_matches_assignee_sample :
  let req := Sample.request None "Engineering" None Sample.new_task_body in
  let task := {| task_id := 500%N; title := "Ship it";
                 description := "Release 1.0"; departmentId := 1%N;
                 assignedTo := 12%N; status := "pending";
                 dueDate := 604801000%Z |} in
  let db' := insertTask task Sample.db in
  createTask 1000 500%N req Sample.db
  = ({| res_status := 201; res_body := TaskJson task |}, db')
  /\ List.NoDup (map emp_id (employees db'))
  /\ exists e,
       findEmployeeById db' (assignedTo task) = Some e
       /\ emp_departmentId e = departmentId task.
Proof.
  intros req task db'.
  assert (Hrun : createTask 1000 500%N req Sample.db
                 = ({| res_status := 201; res_body := TaskJson task |}, db'))
    by (vm_compute; reflexivity).
  assert (Hnd : List.NoDup (map emp_id (employees db'))).
  { simpl. repeat constructor; simpl; intuition discriminate. }
  split; [exact Hrun |]. split; [exact Hnd |].
  exact (proj2 (createTask_department_matches_assignee
                  _ _ _ _ _ _ task Hrun eq_refl) Hnd).
Defined.

(** ** Task update *)

Lemma kept_refl b t : kept b t t.
Proof. unfold kept. repeat split; reflexivity. Qed.

Lemma assign_if_falsy {A : Type} (cast : JValue -> option A) v :
  truthy_field v = false -> assign_if cast v = Untouched.
Proof. unfold assign_if. intros ->. reflexivity. Qed.

(** Assigning from a body touches neither the ids nor a path whose value
    in the body is missing or falsy. *)
Lemma applyChanges_kept newDate b t :
  kept b t
    (applyChanges
       {| new_title := assign_if castString (b !! "title");
          new_description := assign_if castString (b !! "description");
          new_status := assign_if castString (b !! "status");
          new_dueDate := assign_if newDate (b !! "dueDate") |} t).
Proof.
  unfold kept, applyChanges; simpl.
  repeat split; intros H; rewrite (assign_if_falsy _ _ H); reflexivity.
Qed.

Lemma updateOne_Forall2 (R : Task -> Task -> Prop) id f ts :
  (forall t, R t t) ->
  (forall t, R t (f t)) ->
  Forall2 R ts (updateOne id f ts).
Proof.
  intros Hrefl Hf. induction ts as [|t rest IH]; simpl; [constructor |].
  destruct (N.eqb (task_id t) id).
  - constructor; [apply Hf |]. clear IH.
    induction rest; constructor; [apply Hrefl | assumption].
  - constructor; [apply Hrefl | exact IH].
Qed.

Lemma Forall2_refl_on {A : Type} (R : A -> A -> Prop) (l : list A) :
  (forall x, R x x) -> Forall2 R l l.
Proof. intros H. induction l; constructor; [apply H | assumption]. Qed.

Lemma updateTask_frame newDate req db :
  departments (snd (updateTask newDate req db)) = departments db
  /\ employees (snd (updateTask newDate req db)) = employees db
  /\ Forall2 (kept (body req)) (tasks db)
       (tasks (snd (updateTask newDate req db)))
  /\ (forall t', res_body (fst (updateTask newDate req db)) = TaskJson t' ->
      exists t, In t (tasks db) /\ kept (body req) t t').
Proof.
  pose proof (Forall2_refl_on _ (tasks db) (kept_refl (body req))) as Hsame.
  unfold updateTask.
  destruct (findDepartmentByName db (departmentName req)) as [department|err];
    [| simpl; repeat split; [exact Hsame | discriminate]].
  destruct (taskId req) as [id|];
    [| simpl; repeat split; [exact Hsame | discriminate]].
  destruct (findOne _ (tasks db)) as [task|] eqn:Hfind;
    [| simpl; repeat split; [exact Hsame | discriminate]].
  destruct (validChanges _);
    [| simpl; repeat split; [exact Hsame | discriminate]].
  simpl. repeat split.
  - apply updateOne_Forall2; [apply kept_refl |].
    intros t. apply applyChanges_kept.
  - intros t' [= <-]. exists task. split.
    + unfold findOne in Hfind. apply find_some in Hfind. apply Hfind.
    + apply applyChanges_kept.
Qed.

(** Follow the tests of a gate down to the branch that produced [H]. *)
Ltac gate_cases H :=
  repeat match type of H with
         | (if ?c then _ else _) = _ => destruct c
         | match ?c with _ => _ end = _ => destruct c
         end;
  try discriminate H.

Lemma jwtAuthMiddleware_next_body J key clock req req' :
  jwtAuthMiddleware J key clock req = Next req' -> body req' = body req.
Proof.
  unfold jwtAuthMiddleware. intros H. gate_cases H.
  injection H as <-. reflexivity.
Qed.

Lemma jwtAuthMiddleware_respond_no_task J key clock req res t :
  jwtAuthMiddleware J key clock req = Respond res -> res_body res <> TaskJson t.
Proof.
  unfold jwtAuthMiddleware. intros H. gate_cases H;
    injection H as <-; discriminate.
Qed.

(** C10: the update route changes no department and no employee; every
    stored task keeps its [_id], its [departmentId] and its [assignedTo],
    and keeps each of title, description, status and dueDate whose value in
    the request body is missing or falsy. The task returned in the answer is
    a stored task changed within the same bounds. *)
Theorem putTaskRoute_frame J key clock newDate req db :
  departments (snd (putTaskRoute J key clock newDate req db)) = departments db
  /\ employees (snd (putTaskRoute J key clock newDate req db)) = employees db
  /\ Forall2 (kept (body req)) (tasks db)
       (tasks (snd (putTaskRoute J key clock newDate req db)))
  /\ (forall t',
        res_body (fst (putTaskRoute J key clock newDate req db)) = TaskJson t'
        -> exists t, In t (tasks db) /\ kept (body req) t t').
Proof.
  unfold putTaskRoute, route.
  destruct (jwtAuthMiddleware J key clock req) as [req' | res] eqn:Hgate.
  - rewrite <- (jwtAuthMiddleware_next_body _ _ _ _ _ Hgate).
    apply updateTask_frame.
  - simpl. repeat split.
    + apply Forall2_refl_on, kept_refl.
    + intros t' Ht'.
      destruct (jwtAuthMiddleware_respond_no_task _ _ _ _ _ t' Hgate Ht').
Qed.

(** ** Cutting strings *)

Lemma occurs_append c a b :
  occurs c (String.append a b) = occurs c a || occurs c b.
Proof.
  induction a as [|x a IH]; simpl; [reflexivity |].
  rewrite IH. apply orb_assoc.
Qed.

Lemma split_absent c s : occurs c s = false -> split c s = [s].
Proof.
  induction s as [|x s IH]; simpl; [reflexivity |].
  intros H. apply orb_false_iff in H. destruct H as [Hx Hs].
  rewrite Hx, (IH Hs). reflexivity.
Qed.

Lemma split_append c a b :
  occurs c a = false ->
  split c (String.append a (String c b)) = a :: split c b.
Proof.
  induction a as [|x a IH]; simpl.
  - intros _. rewrite Ascii.eqb_refl. reflexivity.
  - intros H. apply orb_false_iff in H. destruct H as [Hx Ha].
    rewrite Hx, (IH Ha). reflexivity.
Qed.

(** The header [Bearer <token>] yields the token when the token has no
    space in it. *)
Lemma second_segment_bearer token :
  occurs " " token = false ->
  second_segment (String.append "Bearer " token) = Some token.
Proof.
  intros H. unfold second_segment.
  change (String.append "Bearer " token)
    with (String.append "Bearer" (String " " token)).
  rewrite split_append by reflexivity.
  rewrite (split_absent _ _ H). reflexivity.
Qed.

(** ** The reference token library meets the contract *)

Lemma nibble_not_dot b0 b1 b2 b3 :
  Ascii.eqb (RefJwt.nibble b0 b1 b2 b3) "." = false.
Proof. destruct b0, b1, b2, b3; reflexivity. Qed.

Lemma nibble_not_space b0 b1 b2 b3 :
  Ascii.eqb (RefJwt.nibble b0 b1 b2 b3) " " = false.
Proof. destruct b0, b1, b2, b3; reflexivity. Qed.

Lemma armor_no_dot s : occurs "." (RefJwt.armor s) = false.
Proof.
  induction s as [|[b0 b1 b2 b3 b4 b5 b6 b7] s IH]; [reflexivity |].
  cbn [RefJwt.armor occurs].
  rewrite !nibble_not_dot, IH. reflexivity.
Qed.

Lemma armor_no_space s : occurs " " (RefJwt.armor s) = false.
Proof.
  induction s as [|[b0 b1 b2 b3 b4 b5 b6 b7] s IH]; [reflexivity |].
  cbn [RefJwt.armor occurs].
  rewrite !nibble_not_space, IH. reflexivity.
Qed.

Lemma unarmor_armor s : RefJwt.unarmor (RefJwt.armor s) = Some s.
Proof.
  induction s as [|[b0 b1 b2 b3 b4 b5 b6 b7] s IH]; [reflexivity |].
  cbn [RefJwt.armor RefJwt.unarmor].
  rewrite IH. reflexivity.
Qed.

Lemma bits_plain p :
  occurs "." (RefJwt.bits p) = false /\ occurs " " (RefJwt.bits p) = false.
Proof. induction p as [p [IH1 IH2] | p [IH1 IH2] |]; simpl; auto. Qed.

Lemma unbits_bits p : RefJwt.unbits (RefJwt.bits p) = Some p.
Proof. induction p as [p IH | p IH |]; simpl; rewrite ?IH; reflexivity. Qed.

Lemma num_plain z :
  occurs "." (RefJwt.num z) = false /\ occurs " " (RefJwt.num z) = false.
Proof. destruct z as [|p|p]; simpl; auto using bits_plain. Qed.

Lemma unnum_num z : RefJwt.unnum (RefJwt.num z) = Some z.
Proof. destruct z as [|p|p]; simpl; rewrite ?unbits_bits; reflexivity. Qed.

Lemma flag_plain a :
  occurs "." (RefJwt.flag a) = false /\ occurs " " (RefJwt.flag a) = false.
Proof. destruct a; split; reflexivity. Qed.

Lemma unflag_flag a : RefJwt.unflag (RefJwt.flag a) = Some a.
Proof. destruct a; reflexivity. Qed.

Lemma split_token u e a iat exp k :
  split "." (RefJwt.token_of u e a iat exp k)
  = [RefJwt.armor u; RefJwt.armor e; RefJwt.flag a; RefJwt.num iat;
     RefJwt.num exp; RefJwt.armor k].
Proof.
  unfold RefJwt.token_of, RefJwt.dot.
  rewrite !split_append, split_absent;
    auto using armor_no_dot; apply num_plain || apply flag_plain.
Qed.

Lemma token_compact u e a iat exp k :
  RefJwt.token_of u e a iat exp k <> ""
  /\ occurs " " (RefJwt.token_of u e a iat exp k) = false.
Proof.
  unfold RefJwt.token_of, RefJwt.dot. split.
  - destruct (RefJwt.armor u); discriminate.
  - repeat (rewrite occurs_append; cbn [occurs]).
    rewrite !armor_no_space.
    rewrite (proj2 (flag_plain a)), (proj2 (num_plain iat)),
      (proj2 (num_plain exp)).
    reflexivity.
Qed.

Lemma sign_token payload key expiresIn clock token :
  RefJwt.sign payload key expiresIn clock = Ok token ->
  exists u e a k,
    key = Some k /\ payload = claims u e a
    /\ token = RefJwt.token_of u e a clock (clock + expiresIn) k.
Proof.
  unfold RefJwt.sign. intros H.
  repeat case_match; try discriminate.
  injection H as <-. subst. eauto 10.
Qed.

Lemma verify_token u e a iat exp k later :
  (later < exp)%Z ->
  RefJwt.verify (RefJwt.token_of u e a iat exp k) (Some k) later
  = Ok (stamped (claims u e a) iat exp).
Proof.
  intros H. unfold RefJwt.verify.
  rewrite split_token, !unarmor_armor, unflag_flag, !unnum_num.
  rewrite String.eqb_refl.
  apply Z.ltb_lt in H. rewrite H. reflexivity.
Qed.

Lemma RefJwt_contract : JwtContract RefJwt.lib.
Proof.
  split; unfold RefJwt.lib; cbn [jwt_sign jwt_verify].
  - intros payload key expiresIn clock token H.
    apply sign_token in H. destruct H as (u & e & a & k & _ & _ & ->).
    apply token_compact.
  - intros payload key expiresIn clock token later H _ _ Hlater.
    apply sign_token in H. destruct H as (u & e & a & k & [= <-] & -> & ->).
    apply verify_token. exact Hlater.
Qed.

Lemma sign_claims u e a k expiresIn clock :
  RefJwt.sign (claims u e a) (Some k) expiresIn clock
  = Ok (RefJwt.token_of u e a clock (clock + expiresIn) k).
Proof.
  unfold RefJwt.sign.
  replace (claims u e a !! "userId") with (Some (JStr u)) by reflexivity.
  replace (claims u e a !! "email") with (Some (JStr e)) by reflexivity.
  replace (claims u e a !! "isAdmin") with (Some (JBool a)) by reflexivity.
  destruct (decide (claims u e a = claims u e a)); [reflexivity | congruence].
Qed.

(** ** The gates *)

Lemma second_segment_nonempty_header h token :
  second_segment h = Some token -> String.eqb h "" = false.
Proof. destruct h; [discriminate | reflexivity]. Qed.

Lemma truthy_string_some s :
  s <> "" -> truthy_string (Some s) = true.
Proof.
  intros H. simpl. destruct (String.eqb_spec s ""); [contradiction | reflexivity].
Qed.

(** What each gate does with a header that carries a non-empty second
    segment: the outcome rests on [jwt.verify]. *)
Lemma jwtAuthMiddleware_token J key clock req h token :
  authorization req = Some h ->
  second_segment h = Some token ->
  token <> "" ->
  jwtAuthMiddleware J key clock req
  = match jwt_verify J token key clock with
    | Ok decoded => Next (set_user req decoded)
    | Throw _ =>
        Respond {| res_status := 401; res_body := Message "Invalid token." |}
    end.
Proof.
  intros Hh Hseg Hne. unfold jwtAuthMiddleware. rewrite Hh.
  cbn [truthy_string from_option].
  rewrite (second_segment_nonempty_header _ _ Hseg), Hseg.
  rewrite (truthy_string_some _ Hne). reflexivity.
Qed.

Lemma adminAuthMiddleware_token J key clock req h token :
  authorization req = Some h ->
  second_segment h = Some token ->
  token <> "" ->
  adminAuthMiddleware J key clock req
  = match jwt_verify J token key clock with
    | Ok decoded =>
        if truthy_field (decoded !! "isAdmin") then Next (set_user req decoded)
        else Respond {| res_status := 403;
                        res_body := Message "Access denied. Admins only." |}
    | Throw err =>
        Respond {| res_status := 400;
                   res_body := MessageError "Invalid token" err |}
    end.
Proof.
  intros Hh Hseg Hne. unfold adminAuthMiddleware. rewrite Hh.
  cbn [from_option]. rewrite Hseg.
  rewrite (truthy_string_some _ Hne). reflexivity.
Qed.

(** The admin gate answers a token that [jwt.verify] refuses with status
    400, which is no [Unauthenticated] answer. *)
Lemma adminAuthMiddleware_refused_token J key clock req h token err :
  authorization req = Some h ->
  second_segment h = Some token ->
  token <> "" ->
  jwt_verify J token key clock = Throw err ->
  adminAuthMiddleware J key clock req
  = Respond {| res_status := 400;
               res_body := MessageError "Invalid token" err |}.
Proof.
  intros Hh Hseg Hne Hv.
  rewrite (adminAuthMiddleware_token _ _ _ _ _ _ Hh Hseg Hne), Hv.
  reflexivity.
Qed.

(** C2, as the code has it: a request whose credential extraction fails is
    answered by the gate itself and never reaches the handler. The user gate
    answers 401 with the kind of the stage that failed: NoToken for an
    absent or empty header, MalformedHeader for a header without a
    non-empty second segment, InvalidToken for a token that verification
    refuses. The admin gate answers 401 NoToken for the first two stages
    alike. *)
Theorem gates_reject_without_valid_token J key clock req k :
  extraction_failure J key clock req = Some k ->
  exists r_user r_admin,
    jwtAuthMiddleware J key clock req = Respond r_user
    /\ unauthenticated r_user = Some k
    /\ adminAuthMiddleware J key clock req = Respond r_admin
    /\ (k <> InvalidToken -> unauthenticated r_admin = Some NoToken)
    /\ forall handler db,
         route (jwtAuthMiddleware J key clock) handler req db = (r_user, db)
         /\ route (adminAuthMiddleware J key clock) handler req db
            = (r_admin, db).
Proof.
  unfold extraction_failure, route.
  destruct (authorization req) as [h|] eqn:Hh.
  - destruct (String.eqb_spec h "") as [-> | Hne].
    + intros [= <-].
      unfold jwtAuthMiddleware, adminAuthMiddleware. rewrite Hh.
      do 2 eexists. repeat split; reflexivity.
    + destruct (second_segment h) as [token|] eqn:Hseg.
      * destruct (String.eqb_spec token "") as [-> | Htok].
        -- intros [= <-].
           unfold jwtAuthMiddleware, adminAuthMiddleware. rewrite Hh.
           cbn [from_option]. rewrite Hseg.
           rewrite (truthy_string_some _ Hne).
           do 2 eexists. repeat split; reflexivity.
        -- rewrite (jwtAuthMiddleware_token _ _ _ _ _ _ Hh Hseg Htok).
           rewrite (adminAuthMiddleware_token _ _ _ _ _ _ Hh Hseg Htok).
           destruct (jwt_verify J token key clock) as [decoded | err];
             [discriminate |].
           intros [= <-]. do 2 eexists.
           repeat split; try reflexivity. congruence.
      * intros [= <-].
        unfold jwtAuthMiddleware, adminAuthMiddleware. rewrite Hh.
        cbn [from_option]. rewrite Hseg.
        rewrite (truthy_string_some _ Hne).
        do 2 eexists. repeat split; reflexivity.
  - intros [= <-].
    unfold jwtAuthMiddleware, adminAuthMiddleware. rewrite Hh.
    do 2 eexists. repeat split; reflexivity.
Qed.

Lemma gates_reject_without_valid_token_sample :
  let req := Sample.request (Some "Bearer") "Engineering" None ∅ in
  extraction_failure RefJwt.lib Sample.key 200 req = Some MalformedHeader
  /\ exists r_user r_admin,
       jwtAuthMiddleware RefJwt.lib Sample.key 200 req = Respond r_user
       /\ unauthenticated r_user = Some MalformedHeader
       /\ adminAuthMiddleware RefJwt.lib Sample.key 200 req = Respond r_admin
       /\ (MalformedHeader <> InvalidToken ->
           unauthenticated r_admin = Some NoToken)
       /\ forall handler db,
            route (jwtAuthMiddleware RefJwt.lib Sample.key 200) handler req db
            = (r_user, db)
            /\ route (adminAuthMiddleware RefJwt.lib Sample.key 200)
                 handler req db
               = (r_admin, db).
Proof.
  intros req.
  assert (H : extraction_failure RefJwt.lib Sample.key 200 req
              = Some MalformedHeader) by reflexivity.
  split; [exact H |].
  exact (gates_reject_without_valid_token _ _ _ _ _ H).
Defined.

(** C2 as stated fails on the admin gate: a header that is present but has
    no second segment is answered exactly as an absent header is, as
    NoToken and not as MalformedHeader; and a token that verification
    refuses is answered with status 400, not with an Unauthenticated
    answer. *)
Lemma adminAuthMiddleware_does_not_tell_malformed_header :
  extraction_failure RefJwt.lib Sample.key 200
    (Sample.request (Some "Bearer") "Engineering" None ∅)
  = Some MalformedHeader
  /\ adminAuthMiddleware RefJwt.lib Sample.key 200
       (Sample.request (Some "Bearer") "Engineering" None ∅)
     = Respond {| res_status := 401;
                  res_body := Message "Access denied. No token provided." |}
  /\ adminAuthMiddleware RefJwt.lib Sample.key 200
       (Sample.request None "Engineering" None ∅)
     = Respond {| res_status := 401;
                  res_body := Message "Access denied. No token provided." |}
  /\ unauthenticated
       {| res_status := 401;
          res_body := Message "Access denied. No token provided." |}
     <> Some MalformedHeader
  /\ extraction_failure RefJwt.lib Sample.key 200
       (Sample.request (Some "Bearer x.y") "Engineering" None ∅)
     = Some InvalidToken
  /\ adminAuthMiddleware RefJwt.lib Sample.key 200
       (Sample.request (Some "Bearer x.y") "Engineering" None ∅)
     = Respond {| res_status := 400;
                  res_body := MessageError "Invalid token"
                                (JsError "jwt malformed") |}
  /\ unauthenticated
       {| res_status := 400;
          res_body := MessageError "Invalid token" (JsError "jwt malformed") |}
     = None.
Proof.
  repeat split; try reflexivity. discriminate.
Qed.

(** C3: a request whose token verifies and whose decoded claims have
    [isAdmin] false or missing is answered 403 by the admin gate, which is a
    Forbidden answer and no Unauthenticated one, and does not reach the
    handler; the user gate lets it through with the decoded claims attached
    as [req.user]. *)
Theorem non_admin_forbidden_by_admin_gate_only
    J key clock req h token decoded :
  authorization req = Some h ->
  second_segment h = Some token ->
  token <> "" ->
  jwt_verify J token key clock = Ok decoded ->
  decoded !! "isAdmin" = None \/ decoded !! "isAdmin" = Some (JBool false) ->
  (exists r,
     adminAuthMiddleware J key clock req = Respond r
     /\ forbidden r = true
     /\ unauthenticated r = None
     /\ forall handler db,
          route (adminAuthMiddleware J key clock) handler req db = (r, db))
  /\ jwtAuthMiddleware J key clock req = Next (set_user req decoded)
  /\ user (set_user req decoded) = Some decoded
  /\ forall handler db,
       route (jwtAuthMiddleware J key clock) handler req db
       = handler (set_user req decoded) db.
Proof.
  intros Hh Hseg Hne Hv Hadmin.
  assert (Hfalsy : truthy_field (decoded !! "isAdmin") = false)
    by (destruct Hadmin as [-> | ->]; reflexivity).
  pose proof (adminAuthMiddleware_token J key clock _ _ _ Hh Hseg Hne) as Ha.
  pose proof (jwtAuthMiddleware_token J key clock _ _ _ Hh Hseg Hne) as Hu.
  rewrite Hv in Ha, Hu. rewrite Hfalsy in Ha.
  split.
  - eexists. split; [exact Ha |]. repeat split.
    intros handler db. unfold route. rewrite Ha. reflexivity.
  - split; [exact Hu |]. split; [reflexivity |].
    intros handler db. unfold route. rewrite Hu. reflexivity.
Qed.

Lemma non_admin_forbidden_by_admin_gate_only_sample :
  let h := String.append "Bearer " Sample.user_token in
  let req := Sample.request (Some h) "Engineering" None ∅ in
  let decoded := stamped Sample.user_claims 100 3700 in
  second_segment h = Some Sample.user_token
  /\ Sample.user_token <> ""
  /\ jwt_verify RefJwt.lib Sample.user_token Sample.key 200 = Ok decoded
  /\ decoded !! "isAdmin" = Some (JBool false)
  /\ (exists r,
        adminAuthMiddleware RefJwt.lib Sample.key 200 req = Respond r
        /\ forbidden r = true
        /\ unauthenticated r = None
        /\ forall handler db,
             route (adminAuthMiddleware RefJwt.lib Sample.key 200)
               handler req db = (r, db))
  /\ jwtAuthMiddleware RefJwt.lib Sample.key 200 req
     = Next (set_user req decoded)
  /\ user (set_user req decoded) = Some decoded
  /\ forall handler db,
       route (jwtAuthMiddleware RefJwt.lib Sample.key 200) handler req db
       = handler (set_user req decoded) db.
Proof.
  intros h req decoded.
  assert (Hseg : second_segment h = Some Sample.user_token)
    by (vm_compute; reflexivity).
  assert (Hne : Sample.user_token <> "") by (vm_compute; discriminate).
  assert (Hv : jwt_verify RefJwt.lib Sample.user_token Sample.key 200
               = Ok decoded) by (vm_compute; reflexivity).
  assert (Hadm : decoded !! "isAdmin" = Some (JBool false))
    by (vm_compute; reflexivity).
  split; [exact Hseg |]. split; [exact Hne |]. split; [exact Hv |].
  split; [exact Hadm |].
  exact (non_admin_forbidden_by_admin_gate_only
           RefJwt.lib Sample.key 200 req h Sample.user_token decoded
           eq_refl Hseg Hne Hv (or_intror Hadm)).
Defined.

(** ** Issuing a token and presenting it *)

Lemma claims_unstamped userId email isAdmin :
  claims userId email isAdmin !! "iat" = None
  /\ claims userId email isAdmin !! "exp" = None.
Proof. split; reflexivity. Qed.

Lemma stamped_lookup payload iat exp (k : string) :
  k <> "iat" -> k <> "exp" -> stamped payload iat exp !! k = payload !! k.
Proof.
  intros Hiat Hexp. unfold stamped.
  rewrite !lookup_insert_ne by congruence. reflexivity.
Qed.

(** C8: with a token library that keeps the contract of jsonwebtoken, the
    token that [generateToken] issues for a claims record, presented as
    [Bearer <token>] before the hour is over, passes the user gate, and the
    claims attached to the request are those issued: [userId], [email] and
    [isAdmin] are unchanged, and the only other entries are the two stamps
    [iat] and [exp]. *)
Theorem issued_token_round_trip
    J key clock later userId email isAdmin token req :
  JwtContract J ->
  generateToken J (Some key) clock (claims userId email isAdmin) = Ok token ->
  (later < clock + 3600)%Z ->
  authorization req = Some (String.append "Bearer " token) ->
  exists decoded,
    jwtAuthMiddleware J (Some key) later req = Next (set_user req decoded)
    /\ user (set_user req decoded) = Some decoded
    /\ decoded !! "userId" = Some (JStr userId)
    /\ decoded !! "email" = Some (JStr email)
    /\ decoded !! "isAdmin" = Some (JBool isAdmin)
    /\ (forall k : string,
          k <> "iat" -> k <> "exp" ->
          decoded !! k = claims userId email isAdmin !! k)
    /\ decoded = stamped (claims userId email isAdmin) clock (clock + 3600).
Proof.
  intros HJ Hsign Hlater Hh. unfold generateToken in Hsign.
  destruct (sign_compact J HJ _ _ _ _ _ Hsign) as [Hne Hspace].
  destruct (claims_unstamped userId email isAdmin) as [Hiat Hexp].
  pose proof (verify_signed J HJ _ _ _ _ _ later Hsign Hiat Hexp Hlater) as Hv.
  exists (stamped (claims userId email isAdmin) clock (clock + ONE_HOUR)).
  split.
  - rewrite (jwtAuthMiddleware_token J (Some key) later req _ token Hh
               (second_segment_bearer _ Hspace) Hne).
    rewrite Hv. reflexivity.
  - split; [reflexivity |].
    split; [reflexivity |]. split; [reflexivity |]. split; [reflexivity |].
    split; [| reflexivity].
    intros k Hk1 Hk2. apply stamped_lookup; assumption.
Qed.

Lemma issued_token_round_trip_sample :
  let req := Sample.request (Sample.bearer Sample.user_token)
               "Engineering" None ∅ in
  generateToken RefJwt.lib Sample.key 100 Sample.user_claims
  = Ok Sample.user_token
  /\ (200 < 100 + 3600)%Z
  /\ exists decoded,
       jwtAuthMiddleware RefJwt.lib Sample.key 200 req
       = Next (set_user req decoded)
       /\ user (set_user req decoded) = Some decoded
       /\ decoded !! "userId" = Some (JStr "11")
       /\ decoded !! "email" = Some (JStr "e1@example.org")
       /\ decoded !! "isAdmin" = Some (JBool false)
       /\ (forall k : string,
             k <> "iat" -> k <> "exp" ->
             decoded !! k = Sample.user_claims !! k)
       /\ decoded = stamped Sample.user_claims 100 (100 + 3600).
Proof.
  intros req.
  assert (Hsign : generateToken RefJwt.lib Sample.key 100 Sample.user_claims
                  = Ok Sample.user_token) by (vm_compute; reflexivity).
  assert (Hlater : (200 < 100 + 3600)%Z) by lia.
  split; [exact Hsign |]. split; [exact Hlater |].
  exact (issued_token_round_trip RefJwt.lib "s3cret" 100 200
           "11" "e1@example.org" false Sample.user_token req
           RefJwt_contract Hsign Hlater eq_refl).
Defined.

(** Once the hour is over the same token is refused. *)
Example expired_token_refused :
  jwtAuthMiddleware RefJwt.lib Sample.key 3700
    (Sample.request (Sample.bearer Sample.user_token) "Engineering" None ∅)
  = Respond {| res_status := 401; res_body := Message "Invalid token." |}.
Proof. vm_compute. reflexivity. Qed.

(** ** A run of the update route *)

Lemma putTaskRoute_frame_sample :
  let req := Sample.request (Sample.bearer Sample.user_token)
               "Engineering" (Some 101%N) Sample.update_body in
  let out := putTaskRoute RefJwt.lib Sample.key 200 Sample.newDate req
               Sample.db in
  let t' := {| task_id := 101%N; title := "Ship it twice";
               description := "work"; departmentId := 1%N;
               assignedTo := 11%N; status := "pending"; dueDate := 0%Z |} in
  res_body (fst out) = TaskJson t'
  /\ Forall2 (kept (body req)) (tasks Sample.db) (tasks (snd out))
  /\ exists t, In t (tasks Sample.db) /\ kept (body req) t t'.
Proof.
  intros req out t'.
  assert (Hrun : res_body (fst out) = TaskJson t') by (vm_compute; reflexivity).
  split; [exact Hrun |].
  destruct (putTaskRoute_frame RefJwt.lib Sample.key 200 Sample.newDate req
              Sample.db) as (_ & _ & Hall & Hres).
  split; [exact Hall | exact (Hres t' Hrun)].
Defined.

(** ** Passwords *)

(** Saving a new employee stores what [bcrypt.hash] returns for the
    password, and [comparePassword] is [bcrypt.compare] against that stored
    value: what the pair guarantees is what bcrypt guarantees. *)
Lemma comparePassword_after_save B salt person stored candidate :
  preSave B true (Ok salt) person = Ok stored ->
  bcrypt_hash B (emp_password person) salt = Ok (emp_password stored)
  /\ comparePassword B stored candidate
     = bcrypt_compare B candidate (emp_password stored).
Proof.
  unfold preSave, comparePassword; simpl.
  destruct (bcrypt_hash B (emp_password person) salt) as [hashed | err];
    [| discriminate].
  intros [= <-]. split; reflexivity.
Qed.

Lemma mark_differs (p : string) : String "$" p <> p.
Proof.
  intros H. apply (f_equal String.length) in H. simpl in H. lia.
Qed.

(** Whether a stored password differs from its plaintext, and whether
    [comparePassword] accepts the original only, is settled by the hashing
    library and not by the model: it holds over one library and fails over
    the other. *)
Lemma password_round_trip_rests_on_bcrypt :
  (forall person stored salt q,
     preSave marking true (Ok salt) person = Ok stored ->
     emp_password stored <> emp_password person
     /\ (comparePassword marking stored q = Ok true
         <-> q = emp_password person))
  /\ (let person := set_password Sample.E1 "secret-1" in
      exists stored,
        preSave clipping true (Ok "salt") person = Ok stored
        /\ comparePassword clipping stored "secret-2" = Ok true).
Proof.
  split.
  - intros person stored salt q [= <-]. simpl. split.
    + apply mark_differs.
    + unfold comparePassword. cbn [bcrypt_compare marking emp_password
                                     set_password].
      split.
      * intros [= H]. apply String.eqb_eq in H. congruence.
      * intros ->. rewrite String.eqb_refl. reflexivity.
  - eexists. split; reflexivity.
Qed.

(** * Further properties *)

(** ** What a creation does to the loads *)

Lemma countDocuments_snoc {A : Type} (q : A -> bool) docs d :
  countDocuments q (docs ++ [d])
  = countDocuments q docs + (if q d then 1 else 0).
Proof.
  unfold countDocuments. rewrite List.filter_app, List.length_app. simpl.
  destruct (q d); reflexivity.
Qed.

Lemma totalTasks_same_id db e1 e2 :
  emp_id e1 = emp_id e2 -> totalTasks db e1 = totalTasks db e2.
Proof. unfold totalTasks. intros ->. reflexivity. Qed.

Lemma createTask_outcome now newId req db res db' :
  createTask now newId req db = (res, db') ->
  (exists task,
     res = {| res_status := 201; res_body := TaskJson task |}
     /\ db' = insertTask task db)
  \/ (db' = db /\ (res_status res = 404 \/ res_status res = 500)
      /\ forall t, res_body res <> TaskJson t).
Proof.
  unfold createTask.
  destruct (findDepartmentByName db (departmentName req)) as [department|err].
  - destruct (selectEmployee db (dept_id department)) as [employee|].
    + destruct (newTask _ _ _ _ _ _) as [task | err].
      * intros [= <- <-]. left. exists task. split; reflexivity.
      * destruct err as [m | |]; [destruct (String.eqb m _) |..];
          intros [= <- <-]; right; simpl; repeat split; auto; discriminate.
    + intros [= <- <-]. right. simpl. repeat split; auto; discriminate.
  - destruct err as [m | |]; [destruct (String.eqb m _) |..];
      intros [= <- <-]; right; simpl; repeat split; auto; discriminate.
Qed.

Lemma insertTask_counts task db e :
  totalTasks (insertTask task db) e
  = totalTasks db e + (if N.eqb (assignedTo task) (emp_id e) then 1 else 0)
  /\ pendingTasks (insertTask task db) e
     = pendingTasks db e
       + (if N.eqb (assignedTo task) (emp_id e) && is_open (status task)
          then 1 else 0).
Proof.
  unfold totalTasks, pendingTasks, insertTask; simpl.
  rewrite !countDocuments_snoc. split; reflexivity.
Qed.

(** X1: a creation that succeeds raises the total and the pending count of
    the employees that bear the assignee's id by one, and leaves every
    other employee's two counts as they were. *)
Theorem createTask_raises_assignee_only now newId req db res db' task :
  createTask now newId req db = (res, db') ->
  res_body res = TaskJson task ->
  forall e,
    totalTasks db' e
    = totalTasks db e + (if N.eqb (assignedTo task) (emp_id e) then 1 else 0)
    /\ pendingTasks db' e
       = pendingTasks db e
         + (if N.eqb (assignedTo task) (emp_id e) then 1 else 0).
Proof.
  intros Hrun Hbody e.
  destruct (createTask_created _ _ _ _ _ _ _ Hrun Hbody)
    as (department & employee & t & d & _ & _ & _ & _ & -> & _ & ->).
  destruct (insertTask_counts
              {| task_id := newId; title := t; description := d;
                 departmentId := dept_id department;
                 assignedTo := emp_id employee; status := "pending";
                 dueDate := plus_days now 7 |} db e) as [Htotal Hpending].
  split; [exact Htotal |].
  rewrite Hpending. cbn [status is_open]. rewrite andb_true_r. reflexivity.
Qed.

Lemma createTask_raises_assignee_only_sample :
  let req := Sample.request None "Engineering" None Sample.new_task_body in
  let task := {| task_id := 500%N; title := "Ship it";
                 description := "Release 1.0"; departmentId := 1%N;
                 assignedTo := 12%N; status := "pending";
                 dueDate := 604801000%Z |} in
  createTask 1000 500%N req Sample.db
  = ({| res_status := 201; res_body := TaskJson task |},
     insertTask task Sample.db)
  /\ totalTasks (insertTask task Sample.db) Sample.E2
     = totalTasks Sample.db Sample.E2 + 1
  /\ totalTasks (insertTask task Sample.db) Sample.E1
     = totalTasks Sample.db Sample.E1 + 0.
Proof.
  intros req task.
  assert (Hrun : createTask 1000 500%N req Sample.db
                 = ({| res_status := 201; res_body := TaskJson task |},
                    insertTask task Sample.db)) by (vm_compute; reflexivity).
  split; [exact Hrun |].
  split.
  - exact (proj1 (createTask_raises_assignee_only
                    _ _ _ _ _ _ task Hrun eq_refl Sample.E2)).
  - exact (proj1 (createTask_raises_assignee_only
                    _ _ _ _ _ _ task Hrun eq_refl Sample.E1)).
Defined.

(** The selected employee has the least total among the candidates. *)
Lemma selectEmployee_least_total db dep sel :
  selectEmployee db dep = Some sel ->
  In sel (employeesOf db dep)
  /\ forall e, In e (employeesOf db dep) -> totalTasks db sel <= totalTasks db e.
Proof.
  intros H.
  destruct (employeesOf db dep) as [|x l] eqn:Hemps.
  - rewrite selectEmployee_empty in H by exact Hemps. discriminate.
  - assert (Hne : employeesOf db dep <> []) by (rewrite Hemps; discriminate).
    destruct (selectEmployee_path_nonempty db dep Hne)
      as (i & e' & (Hi & Hall & _) & _ & Hpath).
    unfold selectEmployee in H. rewrite Hpath in H. injection H as ->.
    rewrite Hemps in Hi, Hall. split.
    + eapply nth_error_In. exact Hi.
    + intros e He. apply In_nth_error in He. destruct He as [j Hj].
      specialize (Hall j e Hj). unfold lex_le, load in Hall; simpl in Hall. lia.
Qed.

Lemma same_id_same_employee (emps : list Employee) a b :
  List.NoDup (map emp_id emps) ->
  In a emps -> In b emps -> emp_id a = emp_id b -> a = b.
Proof.
  induction emps as [|x l IH]; simpl; [intros _ [] |].
  intros Hnd Ha Hb Hid. apply NoDup_cons_iff in Hnd. destruct Hnd as [Hx Hnd].
  destruct Ha as [-> | Ha], Hb as [-> | Hb].
  - reflexivity.
  - exfalso. apply Hx. rewrite Hid. apply in_map. exact Hb.
  - exfalso. apply Hx. rewrite <- Hid. apply in_map. exact Ha.
  - apply IH; assumption.
Qed.

Lemma employeesOf_In db dep e :
  In e (employeesOf db dep) <-> In e (employees db) /\ emp_departmentId e = dep.
Proof.
  unfold employeesOf. rewrite filter_In, N.eqb_eq. reflexivity.
Qed.

Lemma createTask_balance_step now newId req db dep :
  List.NoDup (map emp_id (employees db)) ->
  balanced db dep ->
  balanced (snd (createTask now newId req db)) dep.
Proof.
  intros Hnd Hbal.
  destruct (createTask now newId req db) as [res db'] eqn:Hrun. cbn [snd].
  destruct (createTask_outcome _ _ _ _ _ _ Hrun)
    as [(task & -> & ->) | (-> & _)]; [| exact Hbal].
  destruct (createTask_created _ _ _ _ _ _ task Hrun eq_refl)
    as (department & sel & t & d & _ & Hsel & _ & _ & Htask & _ & _).
  destruct (selectEmployee_least_total _ _ _ Hsel) as [Hin Hleast].
  assert (Hassigned : assignedTo task = emp_id sel)
    by (rewrite Htask; reflexivity).
  intros e1 e2 He1 He2.
  change (employeesOf (insertTask task db) dep) with (employeesOf db dep)
    in He1, He2.
  rewrite (proj1 (insertTask_counts task db e1)).
  rewrite (proj1 (insertTask_counts task db e2)).
  specialize (Hbal e1 e2 He1 He2).
  rewrite Hassigned.
  destruct (N.eqb_spec (emp_id sel) (emp_id e1)) as [Hid1 | Hid1];
    [| destruct (N.eqb (emp_id sel) (emp_id e2)); lia].
  assert (e1 = sel).
  { apply employeesOf_In in He1, Hin.
    eapply same_id_same_employee;
      [exact Hnd | apply He1 | apply Hin | congruence]. }
  subst e1.
  assert (dep = dept_id department).
  { apply employeesOf_In in He1, Hin. destruct He1 as [_ <-], Hin as [_ <-].
    reflexivity. }
  subst dep. specialize (Hleast e2 He2).
  destruct (N.eqb (emp_id sel) (emp_id e2)); lia.
Qed.

(** X2: with ids unique among the employees, a creation request, whatever
    its outcome, keeps every department balanced: if no two of its employees
    differed by more than one task before, none do after. *)
Theorem createTask_keeps_balance now newId req db res db' dep :
  List.NoDup (map emp_id (employees db)) ->
  createTask now newId req db = (res, db') ->
  balanced db dep ->
  balanced db' dep.
Proof.
  intros Hnd Hrun Hbal.
  pose proof (createTask_balance_step now newId req db dep Hnd Hbal) as Hstep.
  rewrite Hrun in Hstep. exact Hstep.
Qed.

Lemma createTask_keeps_balance_sample :
  let req := Sample.request None "Engineering" None Sample.new_task_body in
  List.NoDup (map emp_id (employees Cases.even))
  /\ balanced Cases.even 1%N
  /\ balanced (snd (createTask 1000 500%N req Cases.even)) 1%N.
Proof.
  intros req.
  assert (Hnd : List.NoDup (map emp_id (employees Cases.even))).
  { simpl. repeat constructor; simpl; intuition discriminate. }
  assert (Hbal : balanced Cases.even 1%N).
  { intros e1 e2 H1 H2. simpl in H1, H2.
    destruct H1 as [<- | [<- | []]], H2 as [<- | [<- | []]];
      vm_compute; lia. }
  split; [exact Hnd |]. split; [exact Hbal |].
  exact (createTask_keeps_balance 1000 500%N req Cases.even _ _ 1%N Hnd
           (surjective_pairing _) Hbal).
Defined.

Lemma createTask_employees now newId req db :
  employees (snd (createTask now newId req db)) = employees db
  /\ departments (snd (createTask now newId req db)) = departments db.
Proof.
  destruct (createTask now newId req db) as [res db'] eqn:Hrun.
  destruct (createTask_outcome _ _ _ _ _ _ Hrun)
    as [(task & _ & ->) | (-> & _)]; split; reflexivity.
Qed.

(** X3: starting from a store without tasks and with unique employee ids,
    whatever series of creation requests is served, no two employees of a
    department ever differ by more than one task. *)
Theorem createTasks_balanced calls db dep :
  List.NoDup (map emp_id (employees db)) ->
  tasks db = [] ->
  balanced (createTasks calls db) dep.
Proof.
  intros Hnd Hempty.
  assert (Hstart : balanced db dep).
  { intros e1 e2 _ _. unfold totalTasks, countDocuments. rewrite Hempty.
    simpl. lia. }
  clear Hempty. unfold createTasks.
  revert db Hnd Hstart. induction calls as [|c calls IH]; intros db Hnd Hbal.
  - exact Hbal.
  - simpl. apply IH.
    + rewrite (proj1 (createTask_employees _ _ _ _)). exact Hnd.
    + apply createTask_balance_step; assumption.
Qed.

Lemma createTasks_balanced_sample :
  let req := Sample.request None "Engineering" None Sample.new_task_body in
  let calls := [ {| creation_now := 1000; creation_id := 500%N;
                    creation_request := req |};
                 {| creation_now := 2000; creation_id := 501%N;
                    creation_request := req |};
                 {| creation_now := 3000; creation_id := 502%N;
                    creation_request := req |} ] in
  let start := setTasks [] Sample.db in
  List.NoDup (map emp_id (employees start))
  /\ map assignedTo (tasks (createTasks calls start)) = [11%N; 12%N; 11%N]
  /\ balanced (createTasks calls start) 1%N.
Proof.
  intros req calls start.
  assert (Hnd : List.NoDup (map emp_id (employees start))).
  { simpl. repeat constructor; simpl; intuition discriminate. }
  split; [exact Hnd |]. split; [vm_compute; reflexivity |].
  exact (createTasks_balanced calls start 1%N Hnd eq_refl).
Defined.

(** ** Reading, deleting and updating a task *)

Lemma findOne_some {A : Type} (q : A -> bool) docs d :
  findOne q docs = Some d -> In d docs /\ q d = true.
Proof. apply find_some. Qed.

Lemma findOne_none {A : Type} (q : A -> bool) docs :
  findOne q docs = None <-> forall d, In d docs -> q d = false.
Proof.
  split; [apply find_none |].
  induction docs as [|x l IH]; simpl; [reflexivity |]. intros H.
  rewrite (H x) by (now left). apply IH. intros d Hd. apply H. now right.
Qed.

Lemma findOne_snoc {A : Type} (q : A -> bool) docs d :
  findOne q (docs ++ [d])
  = match findOne q docs with
    | Some x => Some x
    | None => if q d then Some d else None
    end.
Proof.
  unfold findOne. induction docs as [|x l IH]; simpl; [reflexivity |].
  destruct (q x); [reflexivity | exact IH].
Qed.

Lemma in_department_spec id dep t :
  in_department id dep t = true <-> task_id t = id /\ departmentId t = dep.
Proof.
  unfold in_department. rewrite andb_true_iff, !N.eqb_eq. reflexivity.
Qed.

(** With unique ids, the task that bears an id is the one a query for that
    id finds. *)
Lemma findOne_by_unique_id ts t dep :
  List.NoDup (map task_id ts) ->
  In t ts ->
  departmentId t = dep ->
  findOne (in_department (task_id t) dep) ts = Some t.
Proof.
  intros Hnd Hin Hdep. unfold findOne.
  induction ts as [|x l IH]; simpl; [destruct Hin |].
  apply NoDup_cons_iff in Hnd. destruct Hnd as [Hx Hnd].
  destruct Hin as [-> | Hin].
  - replace (in_department (task_id t) dep t) with true; [reflexivity |].
    symmetry. apply in_department_spec. split; [reflexivity | exact Hdep].
  - destruct (in_department (task_id t) dep x) eqn:Hq.
    + apply in_department_spec in Hq. destruct Hq as [Hid _].
      exfalso. apply Hx. rewrite Hid. apply in_map. exact Hin.
    + apply IH; assumption.
Qed.

(** X4: the task a read returns is a stored task that bears the requested
    id and belongs to the department named in the path; and for a known
    department the read answers 404 exactly when no stored task bears the
    id within that department, however many bear it elsewhere. *)
Theorem getTask_serves_own_department req db :
  (forall t,
     res_body (getTask req db) = TaskJson t ->
     res_status (getTask req db) = 200
     /\ In t (tasks db)
     /\ taskId req = Some (task_id t)
     /\ exists department,
          findDepartmentByName db (departmentName req) = Ok department
          /\ departmentId t = dept_id department)
  /\ (forall department id,
        findDepartmentByName db (departmentName req) = Ok department ->
        taskId req = Some id ->
        (res_status (getTask req db) = 404
         <-> forall t, In t (tasks db) -> task_id t = id ->
                       departmentId t <> dept_id department)).
Proof.
  unfold getTask. split.
  - intros t.
    destruct (findDepartmentByName db (departmentName req))
      as [department|err]; [| discriminate].
    destruct (taskId req) as [id|]; [| discriminate].
    destruct (findOne _ (tasks db)) as [task|] eqn:Hfind; [| discriminate].
    intros [= <-]. apply findOne_some in Hfind. destruct Hfind as [Hin Hq].
    apply in_department_spec in Hq. destruct Hq as [<- Hdep].
    repeat split; try assumption. exists department. split; [reflexivity | exact Hdep].
  - intros department id -> ->.
    destruct (findOne _ (tasks db)) as [task|] eqn:Hfind; simpl.
    + apply findOne_some in Hfind. destruct Hfind as [Hin Hq].
      apply in_department_spec in Hq. destruct Hq as [Hid Hdep].
      split; [discriminate |]. intros H. exfalso. exact (H task Hin Hid Hdep).
    + split; [| reflexivity]. intros _ t Hin Hid Hdep.
      pose proof (proj1 (findOne_none _ _) Hfind t Hin) as Hq.
      assert (in_department id (dept_id department) t = true)
        by (apply in_department_spec; split; assumption).
      congruence.
Qed.

Lemma getTask_serves_own_department_sample :
  let req := Sample.request None "Archive" (Some 101%N) ∅ in
  findDepartmentByName Sample.db (departmentName req) = Ok Sample.archive
  /\ taskId req = Some 101%N
  /\ In (Sample.job 101%N 11%N "pending") (tasks Sample.db)
  /\ (res_status (getTask req Sample.db) = 404
      <-> forall t, In t (tasks Sample.db) -> task_id t = 101%N ->
                    departmentId t <> dept_id Sample.archive).
Proof.
  intros req.
  split; [reflexivity |]. split; [reflexivity |]. split; [now left |].
  exact (proj2 (getTask_serves_own_department req Sample.db)
           Sample.archive 101%N eq_refl eq_refl).
Defined.

(** X5: a task that has just been created under an id no stored task bore
    is what a read of that id under the same department name returns. *)
Theorem getTask_after_createTask now newId req db res db' task req' :
  createTask now newId req db = (res, db') ->
  res_body res = TaskJson task ->
  (forall t, In t (tasks db) -> task_id t <> newId) ->
  departmentName req' = departmentName req ->
  taskId req' = Some newId ->
  getTask req' db' = {| res_status := 200; res_body := TaskJson task |}.
Proof.
  intros Hrun Hbody Hfresh Hname Hid.
  destruct (createTask_created _ _ _ _ _ _ _ Hrun Hbody)
    as (department & employee & t & d & Hdep & _ & _ & _ & -> & _ & ->).
  unfold getTask. rewrite Hname, Hid.
  change (findDepartmentByName (insertTask ?x db) ?n)
    with (findDepartmentByName db n).
  rewrite Hdep. cbn [tasks insertTask]. rewrite findOne_snoc.
  replace (findOne _ (tasks db)) with (@None Task).
  - unfold in_department; simpl. rewrite !N.eqb_refl. reflexivity.
  - symmetry. apply findOne_none. intros x Hx.
    destruct (in_department newId (dept_id department) x) eqn:Hq;
      [| reflexivity].
    apply in_department_spec in Hq. destruct Hq as [Hq _].
    exfalso. exact (Hfresh x Hx Hq).
Qed.

Lemma getTask_after_createTask_sample :
  let req := Sample.request None "Engineering" None Sample.new_task_body in
  let req' := Sample.request None "Engineering" (Some 500%N) ∅ in
  let task := {| task_id := 500%N; title := "Ship it";
                 description := "Release 1.0"; departmentId := 1%N;
                 assignedTo := 12%N; status := "pending";
                 dueDate := 604801000%Z |} in
  createTask 1000 500%N req Sample.db
  = ({| res_status := 201; res_body := TaskJson task |},
     insertTask task Sample.db)
  /\ (forall t, In t (tasks Sample.db) -> task_id t <> 500%N)
  /\ getTask req' (insertTask task Sample.db)
     = {| res_status := 200; res_body := TaskJson task |}.
Proof.
  intros req req' task.
  assert (Hrun : createTask 1000 500%N req Sample.db
                 = ({| res_status := 201; res_body := TaskJson task |},
                    insertTask task Sample.db)) by (vm_compute; reflexivity).
  assert (Hfresh : forall t, In t (tasks Sample.db) -> task_id t <> 500%N).
  { simpl. intros t [<- | [<- | [<- | [<- | []]]]]; discriminate. }
  split; [exact Hrun |]. split; [exact Hfresh |].
  exact (getTask_after_createTask _ _ _ _ _ _ task req' Hrun eq_refl Hfresh
           eq_refl eq_refl).
Defined.

Lemma removeFirst_found {A : Type} (q : A -> bool) docs d :
  findOne q docs = Some d ->
  exists before after,
    docs = before ++ d :: after
    /\ removeFirst q docs = before ++ after
    /\ forall x, In x before -> q x = false.
Proof.
  unfold findOne. induction docs as [|x l IH]; simpl; [discriminate |].
  destruct (q x) eqn:Hq.
  - intros [= <-]. exists [], l. repeat split. intros y [].
  - intros H. destruct (IH H) as (before & after & -> & -> & Hb).
    exists (x :: before), after. repeat split.
    intros y [<- | Hy]; [exact Hq | apply Hb; exact Hy].
Qed.

Lemma deleteTask_outcome req db res db' :
  deleteTask req db = (res, db') ->
  (exists before t after department,
     res_status res = 200
     /\ tasks db = before ++ t :: after
     /\ db' = setTasks (before ++ after) db
     /\ taskId req = Some (task_id t)
     /\ findDepartmentByName db (departmentName req) = Ok department
     /\ departmentId t = dept_id department
     /\ forall x, In x before ->
                  in_department (task_id t) (dept_id department) x = false)
  \/ (db' = db /\ res_status res <> 200).
Proof.
  unfold deleteTask.
  destruct (findDepartmentByName db (departmentName req)) as [department|err];
    [| intros [= <- <-]; right; split; [reflexivity | discriminate]].
  destruct (taskId req) as [id|];
    [| intros [= <- <-]; right; split; [reflexivity | discriminate]].
  destruct (findOne _ (tasks db)) as [task|] eqn:Hfind;
    [| intros [= <- <-]; right; split; [reflexivity | discriminate]].
  intros [= <- <-]. left.
  destruct (removeFirst_found _ _ _ Hfind) as (before & after & Hl & Hr & Hb).
  apply findOne_some in Hfind. destruct Hfind as [_ Hq].
  apply in_department_spec in Hq. destruct Hq as [<- Hdep].
  exists before, task, after, department. rewrite Hr.
  repeat split; assumption.
Qed.

(** X6: a deletion that answers 200 takes exactly one task out of the
    store, the first that bears the id within the named department, and
    keeps the others in their order; any other answer leaves the store as it
    was. Departments and employees are never touched. *)
Theorem deleteTask_removes_one req db res db' :
  deleteTask req db = (res, db') ->
  departments db' = departments db
  /\ employees db' = employees db
  /\ (res_status res <> 200 -> db' = db)
  /\ (res_status res = 200 ->
      exists before t after department,
        tasks db = before ++ t :: after
        /\ tasks db' = before ++ after
        /\ taskId req = Some (task_id t)
        /\ findDepartmentByName db (departmentName req) = Ok department
        /\ departmentId t = dept_id department
        /\ forall x, In x before ->
                     in_department (task_id t) (dept_id department) x = false).
Proof.
  intros Hrun.
  destruct (deleteTask_outcome _ _ _ _ Hrun)
    as [(before & t & after & department & Hok & Hl & -> & Hrest)
       | (-> & Hno)].
  - repeat split; [intros H; congruence |]. intros _.
    exists before, t, after, department. split; [exact Hl |].
    split; [reflexivity | exact Hrest].
  - repeat split. intros H. contradiction.
Qed.

Lemma deleteTask_removes_one_sample :
  let req := Sample.request None "Engineering" (Some 102%N) ∅ in
  res_status (fst (deleteTask req Sample.db)) = 200
  /\ exists before t after department,
       tasks Sample.db = before ++ t :: after
       /\ tasks (snd (deleteTask req Sample.db)) = before ++ after
       /\ taskId req = Some (task_id t)
       /\ findDepartmentByName Sample.db (departmentName req) = Ok department
       /\ departmentId t = dept_id department
       /\ forall x, In x before ->
                    in_department (task_id t) (dept_id department) x = false.
Proof.
  intros req.
  assert (H : res_status (fst (deleteTask req Sample.db)) = 200) by reflexivity.
  split; [exact H |].
  exact (proj2 (proj2 (proj2 (deleteTask_removes_one req Sample.db _ _
                                 (surjective_pairing _)))) H).
Defined.

(** X7: with ids unique among the tasks, a task that has been deleted is
    gone: the same request, served as a read on the store that the deletion
    leaves, answers 404. *)
Theorem getTask_after_deleteTask req db res db' :
  List.NoDup (map task_id (tasks db)) ->
  deleteTask req db = (res, db') ->
  res_status res = 200 ->
  getTask req db'
  = {| res_status := 404;
       res_body := Message "Task not found in this department" |}.
Proof.
  intros Hnd Hrun Hok.
  destruct (deleteTask_outcome _ _ _ _ Hrun)
    as [(before & t & after & department & _ & Hl & -> & Hid & Hdep & _ & _)
       | (_ & Hno)]; [| contradiction].
  assert (Hr : tasks (setTasks (before ++ after) db) = before ++ after)
    by reflexivity.
  unfold getTask.
  change (findDepartmentByName (setTasks ?x db) ?n)
    with (findDepartmentByName db n).
  rewrite Hdep, Hid.
  replace (findOne _ (tasks _)) with (@None Task); [reflexivity |].
  symmetry. apply findOne_none. intros x Hx.
  destruct (in_department (task_id t) (dept_id department) x) eqn:Hq;
    [| reflexivity].
  apply in_department_spec in Hq. destruct Hq as [Hq _].
  exfalso. rewrite Hl, map_app in Hnd. simpl in Hnd.
  apply NoDup_remove_2 in Hnd. apply Hnd.
  rewrite <- map_app, <- Hr, <- Hq. apply in_map. exact Hx.
Qed.

Lemma getTask_after_deleteTask_sample :
  let req := Sample.request None "Engineering" (Some 102%N) ∅ in
  List.NoDup (map task_id (tasks Sample.db))
  /\ res_status (fst (deleteTask req Sample.db)) = 200
  /\ getTask req (snd (deleteTask req Sample.db))
     = {| res_status := 404;
          res_body := Message "Task not found in this department" |}.
Proof.
  intros req.
  assert (Hnd : List.NoDup (map task_id (tasks Sample.db))).
  { simpl. repeat constructor; simpl; intuition discriminate. }
  assert (H : res_status (fst (deleteTask req Sample.db)) = 200) by reflexivity.
  split; [exact Hnd |]. split; [exact H |].
  exact (getTask_after_deleteTask req Sample.db _ _ Hnd
           (surjective_pairing _) H).
Defined.

Lemma updateTask_outcome newDate req db res db' :
  updateTask newDate req db = (res, db') ->
  (exists department id task changes,
     findDepartmentByName db (departmentName req) = Ok department
     /\ taskId req = Some id
     /\ findOne (in_department id (dept_id department)) (tasks db) = Some task
     /\ validChanges changes = true
     /\ changes
        = {| new_title := assign_if castString (body req !! "title");
             new_description :=
               assign_if castString (body req !! "description");
             new_status := assign_if castString (body req !! "status");
             new_dueDate := assign_if newDate (body req !! "dueDate") |}
     /\ res = {| res_status := 200;
                 res_body := TaskJson (applyChanges changes task) |}
     /\ db' = saveChanges id changes db)
  \/ (db' = db /\ (res_status res = 404 \/ res_status res = 500)
      /\ forall t, res_body res <> TaskJson t).
Proof.
  unfold updateTask.
  destruct (findDepartmentByName db (departmentName req)) as [department|err];
    [| intros [= <- <-]; right; simpl; repeat split; auto; discriminate].
  destruct (taskId req) as [id|];
    [| intros [= <- <-]; right; simpl; repeat split; auto; discriminate].
  fold (in_department id (dept_id department)).
  destruct (findOne _ (tasks db)) as [task|] eqn:Hfind;
    [| intros [= <- <-]; right; simpl; repeat split; auto; discriminate].
  destruct (validChanges _) eqn:Hvalid;
    [| intros [= <- <-]; right; simpl; repeat split; auto; discriminate].
  intros [= <- <-]. left.
  exists department, id, task. eexists.
  repeat split; try eassumption; try reflexivity.
  apply findOne_some in Hfind. destruct Hfind as [_ Hq].
  apply in_department_spec in Hq. destruct Hq as [-> _]. reflexivity.
Qed.

Lemma findOne_updateOne ts id dep f task :
  List.NoDup (map task_id ts) ->
  (forall t, task_id (f t) = task_id t /\ departmentId (f t) = departmentId t) ->
  findOne (in_department id dep) ts = Some task ->
  findOne (in_department id dep) (updateOne id f ts) = Some (f task).
Proof.
  intros Hnd Hf. unfold findOne.
  induction ts as [|x l IH]; simpl; [discriminate |].
  apply NoDup_cons_iff in Hnd. destruct Hnd as [Hx Hnd].
  destruct (in_department id dep x) eqn:Hq.
  - intros [= <-]. apply in_department_spec in Hq. destruct Hq as [Hid Hdep].
    rewrite Hid, N.eqb_refl. simpl.
    replace (in_department id dep (f x)) with true; [reflexivity |].
    symmetry. apply in_department_spec.
    destruct (Hf x) as [-> ->]. split; assumption.
  - intros Hfind. destruct (N.eqb_spec (task_id x) id) as [Hid | Hid].
    + exfalso. apply find_some in Hfind. destruct Hfind as [Hin Hq'].
      apply in_department_spec in Hq'. destruct Hq' as [Hid' _].
      apply Hx. rewrite Hid, <- Hid'. apply in_map. exact Hin.
    + simpl. rewrite Hq. apply IH; assumption.
Qed.

(** X8: with ids unique among the tasks, the task that an update answers
    with is the task that a read of the same path returns afterwards. *)
Theorem getTask_after_updateTask newDate req db res db' t' :
  List.NoDup (map task_id (tasks db)) ->
  updateTask newDate req db = (res, db') ->
  res_body res = TaskJson t' ->
  getTask req db' = {| res_status := 200; res_body := TaskJson t' |}.
Proof.
  intros Hnd Hrun Hbody.
  destruct (updateTask_outcome _ _ _ _ _ Hrun)
    as [(department & id & task & changes & Hdep & Hid & Hfind & _ & _
         & -> & ->) | (_ & _ & Hno)];
    [| destruct (Hno t' Hbody)].
  injection Hbody as <-.
  unfold getTask.
  change (findDepartmentByName (saveChanges ?i ?c db) ?n)
    with (findDepartmentByName db n).
  rewrite Hdep, Hid. cbn [tasks saveChanges].
  rewrite (findOne_updateOne _ _ _ _ task Hnd); [reflexivity | | exact Hfind].
  intros t. split; reflexivity.
Qed.

Lemma getTask_after_updateTask_sample :
  let req := Sample.request None "Engineering" (Some 101%N)
               Sample.update_body in
  let t' := {| task_id := 101%N; title := "Ship it twice";
               description := "work"; departmentId := 1%N;
               assignedTo := 11%N; status := "pending"; dueDate := 0%Z |} in
  List.NoDup (map task_id (tasks Sample.db))
  /\ res_body (fst (updateTask Sample.newDate req Sample.db)) = TaskJson t'
  /\ getTask req (snd (updateTask Sample.newDate req Sample.db))
     = {| res_status := 200; res_body := TaskJson t' |}.
Proof.
  intros req t'.
  assert (Hnd : List.NoDup (map task_id (tasks Sample.db))).
  { simpl. repeat constructor; simpl; intuition discriminate. }
  assert (H : res_body (fst (updateTask Sample.newDate req Sample.db))
              = TaskJson t') by (vm_compute; reflexivity).
  split; [exact Hnd |]. split; [exact H |].
  exact (getTask_after_updateTask Sample.newDate req Sample.db _ _ t' Hnd
           (surjective_pairing _) H).
Defined.

Lemma updateOne_other id f ts :
  Forall2 (fun t t' => t' = t \/ (task_id t = id /\ t' = f t))
    ts (updateOne id f ts).
Proof.
  induction ts as [|t rest IH]; simpl; [constructor |].
  destruct (N.eqb_spec (task_id t) id) as [Hid | Hid].
  - constructor; [right; split; [exact Hid | reflexivity] |].
    clear. induction rest; constructor; [now left | assumption].
  - constructor; [now left | exact IH].
Qed.

Lemma count_by_assignee (ts ts' : list Task) (id : ObjectId) :
  Forall2 (fun t t' => assignedTo t' = assignedTo t) ts ts' ->
  countDocuments (fun t => N.eqb (assignedTo t) id) ts'
  = countDocuments (fun t => N.eqb (assignedTo t) id) ts.
Proof.
  unfold countDocuments. induction 1 as [|t t' l l' Ht _ IH]; [reflexivity |].
  simpl. rewrite Ht. destruct (N.eqb (assignedTo t) id); simpl; congruence.
Qed.

(** X9: an update rewrites at most the stored tasks that bear the
    requested id and leaves every other stored task exactly as it was; and
    whatever it rewrites, nobody's total task count moves. *)
Theorem updateTask_touches_one newDate req db :
  Forall2 (fun t t' => taskId req <> Some (task_id t) -> t' = t)
    (tasks db) (tasks (snd (updateTask newDate req db)))
  /\ forall e,
       totalTasks (snd (updateTask newDate req db)) e = totalTasks db e.
Proof.
  split.
  - destruct (updateTask newDate req db) as [res db'] eqn:Hrun.
    destruct (updateTask_outcome _ _ _ _ _ Hrun)
      as [(department & id & task & changes & _ & Hid & _ & _ & _ & _ & ->)
         | (-> & _)]; simpl.
    + eapply Forall2_impl; [apply updateOne_other |].
      intros t t' [-> | [<- _]] Hne; [reflexivity | congruence].
    + apply Forall2_refl_on. intros t _. reflexivity.
  - intros e. unfold totalTasks. apply count_by_assignee.
    eapply Forall2_impl; [apply (proj1 (proj2 (proj2 (updateTask_frame _ _ _)))) |].
    intros t t' Hk. apply Hk.
Qed.

Lemma updateTask_touches_one_sample :
  let req := Sample.request None "Engineering" (Some 101%N)
               Cases.complete_body in
  map status (tasks (snd (updateTask Sample.newDate req Sample.db)))
  = ["completed"; "completed"; "completed"; "completed"]
  /\ pendingTasks (snd (updateTask Sample.newDate req Sample.db)) Sample.E1 = 0
  /\ pendingTasks Sample.db Sample.E1 = 1
  /\ totalTasks (snd (updateTask Sample.newDate req Sample.db)) Sample.E1
     = totalTasks Sample.db Sample.E1.
Proof.
  intros req.
  split; [vm_compute; reflexivity |]. split; [reflexivity |].
  split; [reflexivity |].
  exact (proj2 (updateTask_touches_one Sample.newDate req Sample.db) Sample.E1).
Defined.

(** X10: a deletion that answers 200 lowers by one the total of the
    employees that bear the id the deleted task was assigned to, and leaves
    every other total as it was. *)
Theorem deleteTask_lowers_assignee_only req db res db' :
  deleteTask req db = (res, db') ->
  res_status res = 200 ->
  exists t,
    In t (tasks db)
    /\ taskId req = Some (task_id t)
    /\ forall e,
         totalTasks db e
         = totalTasks db' e
           + (if N.eqb (assignedTo t) (emp_id e) then 1 else 0).
Proof.
  intros Hrun Hok.
  destruct (deleteTask_outcome _ _ _ _ Hrun)
    as [(before & t & after & department & _ & Hl & -> & Hid & _)
       | (_ & Hno)]; [| contradiction].
  exists t. split; [rewrite Hl; apply in_elt |]. split; [exact Hid |].
  intros e. unfold totalTasks, countDocuments. rewrite Hl. cbn [tasks setTasks].
  rewrite !List.filter_app, !List.length_app. simpl.
  destruct (N.eqb (assignedTo t) (emp_id e)); simpl; lia.
Qed.

Lemma deleteTask_lowers_assignee_only_sample :
  let req := Sample.request None "Engineering" (Some 102%N) ∅ in
  res_status (fst (deleteTask req Sample.db)) = 200
  /\ exists t,
       In t (tasks Sample.db)
       /\ taskId req = Some (task_id t)
       /\ forall e,
            totalTasks Sample.db e
            = totalTasks (snd (deleteTask req Sample.db)) e
              + (if N.eqb (assignedTo t) (emp_id e) then 1 else 0).
Proof.
  intros req.
  assert (H : res_status (fst (deleteTask req Sample.db)) = 200) by reflexivity.
  split; [exact H |].
  exact (deleteTask_lowers_assignee_only req Sample.db _ _
           (surjective_pairing _) H).
Defined.

(** ** What the task routes keep of the schema *)

Lemma requiredString_nonempty v s :
  requiredString v = Ok s -> String.eqb s "" = false.
Proof.
  unfold requiredString. destruct v as [x|]; [| discriminate].
  destruct (castString x) as [c|]; [| discriminate].
  destruct (String.eqb c "") eqn:Hc; [discriminate |].
  intros [= <-]. exact Hc.
Qed.

Lemma applyChanges_well_formed c t :
  validChanges c = true ->
  well_formed t = true ->
  well_formed (applyChanges c t) = true.
Proof.
  unfold validChanges, well_formed, applyChanges; simpl.
  rewrite !andb_true_iff.
  intros [[[[[_ _] _] Hs] Ht] Hd] [[Ht0 Hd0] Hs0].
  repeat split.
  - destruct (new_title c); simpl; assumption.
  - destruct (new_description c); simpl; assumption.
  - destruct (new_status c); simpl; try assumption.
Qed.

Lemma removeFirst_incl {A : Type} (q : A -> bool) docs x :
  In x (removeFirst q docs) -> In x docs.
Proof.
  induction docs as [|d l IH]; simpl; [auto |].
  destruct (q d); [now right |]. intros [-> | H]; [now left | right; auto].
Qed.

(** X11: the three writing task routes keep the store within the schema:
    if every stored task has a non-empty title, a non-empty description and
    a status among pending, in-progress and completed, so has every task of
    the store that a creation, an update or a deletion leaves. *)
Theorem task_routes_keep_schema now newId newDate req db :
  Forall (fun t => well_formed t = true) (tasks db) ->
  Forall (fun t => well_formed t = true)
    (tasks (snd (createTask now newId req db)))
  /\ Forall (fun t => well_formed t = true)
       (tasks (snd (updateTask newDate req db)))
  /\ Forall (fun t => well_formed t = true)
       (tasks (snd (deleteTask req db))).
Proof.
  intros Hwf. split; [| split].
  - destruct (createTask now newId req db) as [res db'] eqn:Hrun.
    destruct (createTask_outcome _ _ _ _ _ _ Hrun)
      as [(task & -> & ->) | (-> & _)]; [| exact Hwf].
    destruct (createTask_created _ _ _ _ _ _ task Hrun eq_refl)
      as (department & employee & t & d & _ & _ & Ht & Hd & -> & _ & _).
    simpl. apply List.Forall_app. split; [exact Hwf |].
    constructor; [| constructor].
    unfold well_formed; simpl.
    rewrite (requiredString_nonempty _ _ Ht), (requiredString_nonempty _ _ Hd).
    reflexivity.
  - destruct (updateTask newDate req db) as [res db'] eqn:Hrun.
    destruct (updateTask_outcome _ _ _ _ _ Hrun)
      as [(department & id & task & changes & _ & _ & _ & Hv & _ & _ & ->)
         | (-> & _)]; [| exact Hwf].
    simpl. induction Hwf as [|t l Ht Hl IH]; simpl; [constructor |].
    destruct (N.eqb (task_id t) id).
    + constructor; [apply applyChanges_well_formed; assumption | assumption].
    + constructor; assumption.
  - destruct (deleteTask req db) as [res db'] eqn:Hrun. cbn [snd].
    destruct (deleteTask_outcome _ _ _ _ Hrun)
      as [(before & t & after & _ & _ & Hl & -> & _) | (-> & _)];
      [| exact Hwf].
    rewrite Hl in Hwf. apply List.Forall_app in Hwf. destruct Hwf as [Hb Ha].
    cbn [tasks setTasks]. apply List.Forall_app. split; [exact Hb |].
    apply List.Forall_inv_tail in Ha. exact Ha.
Qed.

Lemma task_routes_keep_schema_sample :
  let req := Sample.request None "Engineering" (Some 101%N)
               Sample.update_body in
  Forall (fun t => well_formed t = true) (tasks Sample.db)
  /\ Forall (fun t => well_formed t = true)
       (tasks (snd (updateTask Sample.newDate req Sample.db))).
Proof.
  intros req.
  assert (H : Forall (fun t => well_formed t = true) (tasks Sample.db))
    by (repeat constructor).
  split; [exact H |].
  exact (proj1 (proj2 (task_routes_keep_schema 0 0%N Sample.newDate req
                         Sample.db H))).
Defined.

(** ** An unknown department *)

(** X12: for a department name that no stored department bears, the
    creation route answers 404, while the read, the update and the deletion
    of a task and the two listings answer 500; none of them changes the
    store. *)
Theorem unknown_department_answers now newId newDate req db :
  (forall d, In d (departments db) -> dept_name d <> departmentName req) ->
  createTask now newId req db
  = ({| res_status := 404; res_body := Message "Department not found" |}, db)
  /\ getTask req db
     = {| res_status := 500;
          res_body := ErrorBody (JsError "Department not found") |}
  /\ updateTask newDate req db
     = ({| res_status := 500;
           res_body := ErrorBody (JsError "Department not found") |}, db)
  /\ deleteTask req db
     = ({| res_status := 500;
           res_body := ErrorBody (JsError "Department not found") |}, db)
  /\ reply_status (listTasks req db) = 500
  /\ reply_status (listEmployees req db) = 500.
Proof.
  intros Hnone.
  assert (Hthrow : findDepartmentByName db (departmentName req)
                   = Throw (JsError "Department not found")).
  { unfold findDepartmentByName.
    replace (findOne _ (departments db)) with (@None Department);
      [reflexivity |].
    symmetry. apply findOne_none. intros d Hd.
    destruct (String.eqb_spec (dept_name d) (departmentName req)) as [H|H];
      [destruct (Hnone d Hd H) | reflexivity]. }
  unfold createTask, getTask, updateTask, deleteTask, listTasks, listEmployees.
  rewrite Hthrow. repeat split.
Qed.

Lemma unknown_department_answers_sample :
  let req := Sample.request None "Marketing" (Some 101%N)
               Sample.new_task_body in
  (forall d, In d (departments Sample.db) ->
             dept_name d <> departmentName req)
  /\ createTask 1000 500%N req Sample.db
     = ({| res_status := 404; res_body := Message "Department not found" |},
        Sample.db)
  /\ getTask req Sample.db
     = {| res_status := 500;
          res_body := ErrorBody (JsError "Department not found") |}.
Proof.
  intros req.
  assert (H : forall d, In d (departments Sample.db) ->
                        dept_name d <> departmentName req).
  { simpl. intros d [<- | [<- | []]]; discriminate. }
  split; [exact H |].
  destruct (unknown_department_answers 1000 500%N Sample.newDate req
              Sample.db H) as (Hc & Hg & _).
  split; [exact Hc | exact Hg].
Defined.

(** ** Listings *)







(** X14: for a department that exists, the listing of its employees answers
    404 exactly when a creation request under its name is answered 500
    "Unable to assign task". *)
Theorem listEmployees_404_iff_unassignable now newId req db department :
  findDepartmentByName db (departmentName req) = Ok department ->
  reply_status (listEmployees req db) = 404
  <-> createTask now newId req db
      = ({| res_status := 500; res_body := Message "Unable to assign task" |},
         db).
Proof.
  intros Hdep. unfold listEmployees, createTask. rewrite Hdep.
  destruct (employeesOf db (dept_id department)) as [|x l] eqn:Hemps.
  - rewrite (selectEmployee_empty _ _ Hemps). simpl. split; reflexivity.
  - assert (Hne : employeesOf db (dept_id department) <> [])
      by (rewrite Hemps; discriminate).
    destruct (selectEmployee_path_nonempty _ _ Hne) as (i & e & _ & _ & Hp).
    unfold selectEmployee. rewrite Hp. simpl.
    split; [discriminate |].
    destruct (newTask _ _ _ _ _ _) as [task | err]; [discriminate |].
    destruct err as [m | |]; [destruct (String.eqb m _) |..]; discriminate.
Qed.

Lemma listEmployees_404_iff_unassignable_sample :
  let req := Sample.request None "Archive" None Sample.new_task_body in
  findDepartmentByName Sample.db (departmentName req) = Ok Sample.archive
  /\ reply_status (listEmployees req Sample.db) = 404
  /\ createTask 1000 500%N req Sample.db
     = ({| res_status := 500; res_body := Message "Unable to assign task" |},
        Sample.db).
Proof.
  intros req.
  assert (Hd : findDepartmentByName Sample.db (departmentName req)
               = Ok Sample.archive) by reflexivity.
  assert (Hl : reply_status (listEmployees req Sample.db) = 404) by reflexivity.
  split; [exact Hd |]. split; [exact Hl |].
  exact (proj1 (listEmployees_404_iff_unassignable 1000 500%N req Sample.db
                  Sample.archive Hd) Hl).
Defined.



(** ** More on the gates *)

Lemma adminAuthMiddleware_next J key clock req req' :
  adminAuthMiddleware J key clock req = Next req' ->
  exists h token decoded,
    authorization req = Some h
    /\ second_segment h = Some token
    /\ token <> ""
    /\ jwt_verify J token key clock = Ok decoded
    /\ truthy_field (decoded !! "isAdmin") = true
    /\ req' = set_user req decoded.
Proof.
  unfold adminAuthMiddleware. cbv zeta.
  destruct (authorization req) as [h|]; [| discriminate].
  cbn [from_option].
  destruct (second_segment h) as [token|] eqn:Hseg; [| discriminate].
  destruct (String.eqb_spec token "") as [-> | Hne]; [discriminate |].
  rewrite (truthy_string_some _ Hne). cbn [negb from_option id].
  destruct (jwt_verify J token key clock) as [decoded|err] eqn:Hv;
    [| discriminate].
  destruct (truthy_field (decoded !! "isAdmin")) eqn:Hadm; [| discriminate].
  intros [= <-]. exists h, token, decoded. repeat split; assumption.
Qed.

(** X16: the admin gate lets a request through exactly when its header has
    a non-empty second segment that verifies and the decoded [isAdmin] is
    truthy, whatever its type; the request it passes on is the one received
    with the decoded claims as [req.user]. *)
Theorem adminAuthMiddleware_admits J key clock req req' :
  adminAuthMiddleware J key clock req = Next req'
  <-> exists h token decoded,
        authorization req = Some h
        /\ second_segment h = Some token
        /\ token <> ""
        /\ jwt_verify J token key clock = Ok decoded
        /\ truthy_field (decoded !! "isAdmin") = true
        /\ req' = set_user req decoded.
Proof.
  split.
  - apply adminAuthMiddleware_next.
  - intros (h & token & decoded & Hh & Hseg & Hne & Hv & Hadm & ->).
    rewrite (adminAuthMiddleware_token _ _ _ _ _ _ Hh Hseg Hne), Hv, Hadm.
    reflexivity.
Qed.

Lemma adminAuthMiddleware_admits_sample :
  let req := Sample.request (Some "Bearer anything") "Engineering" None ∅ in
  let decoded : JsObject := <["isAdmin" := JStr "no"]> ∅ in
  second_segment "Bearer anything" = Some "anything"
  /\ jwt_verify Cases.stringly "anything" Sample.key 200 = Ok decoded
  /\ truthy_field (decoded !! "isAdmin") = true
  /\ adminAuthMiddleware Cases.stringly Sample.key 200 req
     = Next (set_user req decoded).
Proof.
  intros req decoded.
  assert (Hseg : second_segment "Bearer anything" = Some "anything")
    by reflexivity.
  assert (Hv : jwt_verify Cases.stringly "anything" Sample.key 200 = Ok decoded)
    by reflexivity.
  assert (Hadm : truthy_field (decoded !! "isAdmin") = true) by reflexivity.
  split; [exact Hseg |]. split; [exact Hv |]. split; [exact Hadm |].
  apply (proj2 (adminAuthMiddleware_admits Cases.stringly Sample.key 200 req
                  (set_user req decoded))).
  exists "Bearer anything", "anything", decoded.
  repeat split; try assumption. discriminate.
Defined.

(** X17: whatever the admin gate lets through, the user gate lets through
    with the same outcome, and the request passed on differs from the one
    received in [req.user] only. *)
Theorem admin_gate_within_user_gate J key clock req req' :
  adminAuthMiddleware J key clock req = Next req' ->
  jwtAuthMiddleware J key clock req = Next req'
  /\ authorization req' = authorization req
  /\ departmentName req' = departmentName req
  /\ taskId req' = taskId req
  /\ body req' = body req.
Proof.
  intros H. apply adminAuthMiddleware_next in H.
  destruct H as (h & token & decoded & Hh & Hseg & Hne & Hv & _ & ->).
  rewrite (jwtAuthMiddleware_token _ _ _ _ _ _ Hh Hseg Hne), Hv.
  repeat split.
Qed.

Lemma admin_gate_within_user_gate_sample :
  let req := Sample.request (Some "Bearer anything") "Engineering" None ∅ in
  let req' := set_user req (<["isAdmin" := JStr "no"]> ∅) in
  adminAuthMiddleware Cases.stringly Sample.key 200 req = Next req'
  /\ jwtAuthMiddleware Cases.stringly Sample.key 200 req = Next req'.
Proof.
  intros req req'.
  assert (H : adminAuthMiddleware Cases.stringly Sample.key 200 req = Next req')
    by reflexivity.
  split; [exact H |].
  exact (proj1 (admin_gate_within_user_gate _ _ _ _ _ H)).
Defined.

Lemma second_segment_header_of scheme token rest :
  occurs " " scheme = false ->
  occurs " " token = false ->
  second_segment (header_of scheme token rest) = Some token
  /\ second_segment (String.append scheme (String " " token)) = Some token.
Proof.
  intros Hs Ht. unfold second_segment, header_of.
  rewrite !split_append by assumption.
  rewrite (split_absent _ _ Ht). split; reflexivity.
Qed.

(** X18: the gates read the second segment of the header and nothing else:
    with any word in place of [Bearer], and with or without further
    segments after the token, a header gets from each gate the outcome that
    the token alone decides. *)
Theorem gates_read_second_segment_only J key clock req scheme token rest :
  occurs " " scheme = false ->
  occurs " " token = false ->
  token <> "" ->
  authorization req = Some (header_of scheme token rest)
  \/ authorization req = Some (String.append scheme (String " " token)) ->
  jwtAuthMiddleware J key clock req
  = match jwt_verify J token key clock with
    | Ok decoded => Next (set_user req decoded)
    | Throw _ =>
        Respond {| res_status := 401; res_body := Message "Invalid token." |}
    end
  /\ adminAuthMiddleware J key clock req
     = match jwt_verify J token key clock with
       | Ok decoded =>
           if truthy_field (decoded !! "isAdmin")
           then Next (set_user req decoded)
           else Respond {| res_status := 403;
                           res_body := Message "Access denied. Admins only." |}
       | Throw err =>
           Respond {| res_status := 400;
                      res_body := MessageError "Invalid token" err |}
       end.
Proof.
  intros Hs Ht Hne Hh.
  destruct (second_segment_header_of scheme token rest Hs Ht) as [H1 H2].
  destruct Hh as [Hh | Hh]; split;
    first [ exact (jwtAuthMiddleware_token _ _ _ _ _ _ Hh H1 Hne)
          | exact (jwtAuthMiddleware_token _ _ _ _ _ _ Hh H2 Hne)
          | exact (adminAuthMiddleware_token _ _ _ _ _ _ Hh H1 Hne)
          | exact (adminAuthMiddleware_token _ _ _ _ _ _ Hh H2 Hne) ].
Qed.

Lemma gates_read_second_segment_only_sample :
  let req := Sample.request
               (Some (header_of "Basic" Sample.user_token "and more"))
               "Engineering" None ∅ in
  occurs " " "Basic" = false
  /\ occurs " " Sample.user_token = false
  /\ jwtAuthMiddleware RefJwt.lib Sample.key 200 req
     = match jwt_verify RefJwt.lib Sample.user_token Sample.key 200 with
       | Ok decoded => Next (set_user req decoded)
       | Throw _ =>
           Respond {| res_status := 401; res_body := Message "Invalid token." |}
       end.
Proof.
  intros req.
  assert (Hs : occurs " " "Basic" = false) by reflexivity.
  assert (Ht : occurs " " Sample.user_token = false) by (vm_compute; reflexivity).
  assert (Hne : Sample.user_token <> "") by (vm_compute; discriminate).
  split; [exact Hs |]. split; [exact Ht |].
  exact (proj1 (gates_read_second_segment_only RefJwt.lib Sample.key 200 req
                  "Basic" Sample.user_token "and more" Hs Ht Hne
                  (or_introl eq_refl))).
Defined.

(** X19: a header that has two spaces after its first word is refused by
    both gates without the token library being asked, whatever follows the
    spaces: the user gate answers 401 "Invalid token format", the admin gate
    401 "No token provided". *)
Theorem gates_refuse_double_space J key clock req scheme rest :
  occurs " " scheme = false ->
  authorization req
  = Some (String.append scheme (String " " (String " " rest))) ->
  jwtAuthMiddleware J key clock req
  = Respond {| res_status := 401;
               res_body := Message "Access denied. Invalid token format." |}
  /\ adminAuthMiddleware J key clock req
     = Respond {| res_status := 401;
                  res_body := Message "Access denied. No token provided." |}.
Proof.
  intros Hs Hh.
  assert (Hseg : second_segment
                   (String.append scheme (String " " (String " " rest)))
                 = Some "").
  { unfold second_segment. rewrite split_append by exact Hs. reflexivity. }
  unfold jwtAuthMiddleware, adminAuthMiddleware. rewrite Hh.
  cbn [from_option]. rewrite Hseg.
  rewrite truthy_string_some; [split; reflexivity |].
  destruct scheme; discriminate.
Qed.

Lemma gates_refuse_double_space_sample :
  let req := Sample.request
               (Some (String.append "Bearer"
                        (String " " (String " " Sample.user_token))))
               "Engineering" None ∅ in
  occurs " " "Bearer" = false
  /\ jwtAuthMiddleware RefJwt.lib Sample.key 200 req
     = Respond {| res_status := 401;
                  res_body := Message "Access denied. Invalid token format." |}
  /\ adminAuthMiddleware RefJwt.lib Sample.key 200 req
     = Respond {| res_status := 401;
                  res_body := Message "Access denied. No token provided." |}.
Proof.
  intros req.
  assert (Hs : occurs " " "Bearer" = false) by reflexivity.
  split; [exact Hs |].
  exact (gates_refuse_double_space RefJwt.lib Sample.key 200 req "Bearer"
           Sample.user_token Hs eq_refl).
Defined.

(** ** Logging in *)

Lemma login_token_origin B J key clock idString email password db token :
  reply_body (login B J key clock idString email password db)
  = TokenJson token ->
  reply_status (login B J key clock idString email password db) = 200
  /\ exists person,
       In person (employees db)
       /\ emp_email person = email
       /\ bcrypt_compare B password (emp_password person) = Ok true
       /\ generateToken J key clock (login_payload idString person) = Ok token.
Proof.
  unfold login, comparePassword.
  destruct (findOne _ (employees db)) as [person|] eqn:Hfind;
    [| discriminate].
  apply findOne_some in Hfind. destruct Hfind as [Hin Hq].
  apply String.eqb_eq in Hq.
  destruct (bcrypt_compare B password (emp_password person)) as [[|]|] eqn:Hc;
    try discriminate.
  cbn [negb].
  destruct (generateToken _ _ _ _) as [tok|] eqn:Hg; [| discriminate].
  intros [= ->]. split; [reflexivity |].
  exists person. repeat split; assumption.
Qed.

(** X20: the login route issues a token only for a stored employee that
    bears the email and whose stored password bcrypt accepts for the
    password sent, and the token is the one [generateToken] makes of that
    employee's payload. An unknown email and a refused password are both
    answered 404, with different messages. *)
Theorem login_issues_token_on_match_only
    B J key clock idString email password db :
  (forall token,
     reply_body (login B J key clock idString email password db)
     = TokenJson token ->
     reply_status (login B J key clock idString email password db) = 200
     /\ exists person,
          In person (employees db)
          /\ emp_email person = email
          /\ bcrypt_compare B password (emp_password person) = Ok true
          /\ generateToken J key clock (login_payload idString person)
             = Ok token)
  /\ ((forall e, In e (employees db) -> emp_email e <> email) ->
      login B J key clock idString email password db
      = {| reply_status := 404;
           reply_body := Plain (Message "Invalid email id") |})
  /\ (forall person,
        findOne (fun e => String.eqb (emp_email e) email) (employees db)
        = Some person ->
        bcrypt_compare B password (emp_password person) = Ok false ->
        login B J key clock idString email password db
        = {| reply_status := 404;
             reply_body := Plain (Message "Invalid username or password") |}).
Proof.
  split; [intros token; apply login_token_origin |].
  unfold login, comparePassword. split.
  - intros Hnone.
    replace (findOne _ (employees db)) with (@None Employee); [reflexivity |].
    symmetry. apply findOne_none. intros e He.
    destruct (String.eqb_spec (emp_email e) email) as [Heq | Hne];
      [destruct (Hnone e He Heq) | reflexivity].
  - intros person -> ->. reflexivity.
Qed.

Lemma login_issues_token_on_match_only_sample :
  (forall e, In e (employees Sample.db) -> emp_email e <> "nobody@example.org")
  /\ login Cases.plain RefJwt.lib Sample.key 100 Cases.idString
       "nobody@example.org" "hash" Sample.db
     = {| reply_status := 404;
          reply_body := Plain (Message "Invalid email id") |}
  /\ bcrypt_compare Cases.plain "guess" (emp_password Sample.E1) = Ok false
  /\ login Cases.plain RefJwt.lib Sample.key 100 Cases.idString
       "e1@example.org" "guess" Sample.db
     = {| reply_status := 404;
          reply_body := Plain (Message "Invalid username or password") |}
  /\ login Cases.plain RefJwt.lib Sample.key 100 Cases.idString
       "e1@example.org" "hash" Sample.db
     = {| reply_status := 200; reply_body := TokenJson Sample.user_token |}.
Proof.
  assert (Hnone : forall e, In e (employees Sample.db) ->
                            emp_email e <> "nobody@example.org").
  { simpl. intros e [<- | [<- | []]]; discriminate. }
  assert (Hc : bcrypt_compare Cases.plain "guess" (emp_password Sample.E1)
               = Ok false) by reflexivity.
  destruct (login_issues_token_on_match_only Cases.plain RefJwt.lib Sample.key
              100 Cases.idString "nobody@example.org" "hash" Sample.db)
    as (_ & Hunknown & _).
  destruct (login_issues_token_on_match_only Cases.plain RefJwt.lib Sample.key
              100 Cases.idString "e1@example.org" "guess" Sample.db)
    as (_ & _ & Hwrong).
  split; [exact Hnone |]. split; [exact (Hunknown Hnone) |].
  split; [exact Hc |]. split; [exact (Hwrong Sample.E1 eq_refl Hc) |].
  vm_compute. reflexivity.
Defined.

Lemma login_payload_entries idString person :
  login_payload idString person !! "iat" = None
  /\ login_payload idString person !! "exp" = None
  /\ login_payload idString person !! "email" = Some (JStr (emp_email person))
  /\ login_payload idString person !! "isAdmin" = Some (JBool false).
Proof. repeat split. Qed.

(** X21: no token that the login route issues opens an admin route. With a
    token library that keeps the contract of jsonwebtoken, a token obtained
    from the login route and presented as [Bearer <token>] within the hour
    passes the user gate, with the employee's email and [isAdmin: false]
    as claims, and is answered 403 by the admin gate. *)
Theorem login_token_is_never_admin
    B J key clock later idString email password db token req :
  JwtContract J ->
  reply_body (login B J (Some key) clock idString email password db)
  = TokenJson token ->
  (later < clock + 3600)%Z ->
  authorization req = Some (String.append "Bearer " token) ->
  adminAuthMiddleware J (Some key) later req
  = Respond {| res_status := 403;
               res_body := Message "Access denied. Admins only." |}
  /\ exists decoded,
       jwtAuthMiddleware J (Some key) later req = Next (set_user req decoded)
       /\ decoded !! "email" = Some (JStr email)
       /\ decoded !! "isAdmin" = Some (JBool false).
Proof.
  intros HJ Hlogin Hlater Hh.
  destruct (login_token_origin _ _ _ _ _ _ _ _ _ Hlogin)
    as (_ & person & _ & <- & _ & Hsign).
  unfold generateToken in Hsign.
  destruct (sign_compact J HJ _ _ _ _ _ Hsign) as [Hne Hspace].
  destruct (login_payload_entries idString person)
    as (Hiat & Hexp & Hemail & Hadm).
  pose proof (verify_signed J HJ _ _ _ _ _ later Hsign Hiat Hexp Hlater) as Hv.
  pose proof (second_segment_bearer _ Hspace) as Hseg.
  rewrite (adminAuthMiddleware_token _ _ _ _ _ _ Hh Hseg Hne), Hv.
  rewrite (jwtAuthMiddleware_token _ _ _ _ _ _ Hh Hseg Hne), Hv.
  split.
  - rewrite stamped_lookup by discriminate. rewrite Hadm. reflexivity.
  - eexists. split; [reflexivity |].
    rewrite !stamped_lookup by discriminate. split; assumption.
Qed.

Lemma login_token_is_never_admin_sample :
  let req := Sample.request (Sample.bearer Sample.user_token)
               "Engineering" None ∅ in
  reply_body (login Cases.plain RefJwt.lib (Some "s3cret") 100 Cases.idString
                "e1@example.org" "hash" Sample.db)
  = TokenJson Sample.user_token
  /\ (200 < 100 + 3600)%Z
  /\ adminAuthMiddleware RefJwt.lib (Some "s3cret") 200 req
     = Respond {| res_status := 403;
                  res_body := Message "Access denied. Admins only." |}
  /\ exists decoded,
       jwtAuthMiddleware RefJwt.lib (Some "s3cret") 200 req
       = Next (set_user req decoded)
       /\ decoded !! "email" = Some (JStr "e1@example.org")
       /\ decoded !! "isAdmin" = Some (JBool false).
Proof.
  intros req.
  assert (Hlogin : reply_body (login Cases.plain RefJwt.lib (Some "s3cret") 100
                                 Cases.idString "e1@example.org" "hash"
                                 Sample.db)
                   = TokenJson Sample.user_token) by (vm_compute; reflexivity).
  assert (Hlater : (200 < 100 + 3600)%Z) by lia.
  split; [exact Hlogin |]. split; [exact Hlater |].
  exact (login_token_is_never_admin Cases.plain RefJwt.lib "s3cret" 100 200
           Cases.idString "e1@example.org" "hash" Sample.db Sample.user_token
           req RefJwt_contract Hlogin Hlater eq_refl).
Defined.

(** ** Departments *)

Lemma first_match_split {A : Type} (q : A -> bool) (f : A -> A) docs d :
  findOne q docs = Some d ->
  exists before after,
    docs = before ++ d :: after
    /\ removeFirst q docs = before ++ after
    /\ replaceFirst q f docs = before ++ f d :: after.
Proof.
  unfold findOne. induction docs as [|x l IH]; simpl; [discriminate |].
  destruct (q x) eqn:Hq.
  - intros [= <-]. exists [], l. repeat split.
  - intros H. destruct (IH H) as (before & after & -> & -> & ->).
    exists (x :: before), after. repeat split.
Qed.

Lemma existsb_named_false name ds :
  existsb (named name) ds = false <-> ~ In name (map dept_name ds).
Proof.
  induction ds as [|d l IH]; simpl; [tauto |].
  unfold named at 1. rewrite orb_false_iff, IH.
  destruct (String.eqb_spec (dept_name d) name); intuition congruence.
Qed.

Lemma findOne_by_unique_name ds d :
  List.NoDup (map dept_name ds) ->
  In d ds ->
  findOne (named (dept_name d)) ds = Some d.
Proof.
  intros Hnd Hin. unfold findOne.
  induction ds as [|x l IH]; simpl; [destruct Hin |].
  apply NoDup_cons_iff in Hnd. destruct Hnd as [Hx Hnd].
  destruct Hin as [-> | Hin].
  - unfold named. rewrite String.eqb_refl. reflexivity.
  - unfold named at 1. destruct (String.eqb_spec (dept_name x) (dept_name d))
      as [Heq | Hne].
    + exfalso. apply Hx. rewrite Heq. apply in_map. exact Hin.
    + apply IH; assumption.
Qed.

Lemma findDepartmentByName_named db name :
  findDepartmentByName db name
  = match findOne (named name) (departments db) with
    | Some department => Ok department
    | None => Throw (JsError "Department not found")
    end.
Proof. reflexivity. Qed.

(** X22: a department that has just been created is the one that its name
    leads to afterwards, for the read of a department and for every task
    route that looks the department up; it starts without a back-reference
    to any employee. *)
Theorem createDepartment_then_found newId req db rep db' :
  createDepartment newId req db = (rep, db') ->
  reply_status rep = 201 ->
  exists d,
    reply_body rep = MessageDepartment "Successfully saved department" d
    /\ dept_id d = newId
    /\ dept_employees d = []
    /\ departments db' = departments db ++ [d]
    /\ findDepartmentByName db' (dept_name d) = Ok d
    /\ forall req',
         departmentName req' = dept_name d ->
         getDepartment req' db'
         = {| reply_status := 200; reply_body := DepartmentJson d |}.
Proof.
  unfold createDepartment.
  destruct (requiredString (body req !! "name")) as [name|err];
    [| intros [= <- _]; discriminate].
  destruct (requiredString (body req !! "description")) as [description|err];
    [| intros [= <- _]; discriminate].
  destruct (existsb (named name) (departments db)) eqn:Hdup;
    [intros [= <- _]; discriminate |].
  intros [= <- <-] _. eexists. split; [reflexivity |].
  split; [reflexivity |]. split; [reflexivity |]. split; [reflexivity |].
  assert (Hfind : findOne (named name)
                    (departments db
                     ++ [{| dept_id := newId; dept_name := name;
                            dept_description := description;
                            dept_employees := [] |}])
                  = Some {| dept_id := newId; dept_name := name;
                            dept_description := description;
                            dept_employees := [] |}).
  { rewrite findOne_snoc.
    replace (findOne (named name) (departments db)) with (@None Department).
    - unfold named; simpl. rewrite String.eqb_refl. reflexivity.
    - symmetry. apply findOne_none. intros d Hd.
      destruct (named name d) eqn:Hq; [| reflexivity].
      apply existsb_named_false in Hdup. exfalso. apply Hdup.
      unfold named in Hq. apply String.eqb_eq in Hq. rewrite <- Hq.
      apply in_map. exact Hd. }
  split.
  - rewrite findDepartmentByName_named. simpl. rewrite Hfind. reflexivity.
  - intros req' Hname. unfold getDepartment. rewrite Hname. simpl.
    rewrite Hfind. reflexivity.
Qed.

Lemma createDepartment_then_found_sample :
  let req := Sample.request None "" None Cases.sales_body in
  let d := {| dept_id := 3%N; dept_name := "Sales";
              dept_description := "Sells things"; dept_employees := [] |} in
  reply_status (fst (createDepartment 3%N req Sample.db)) = 201
  /\ exists d',
       reply_body (fst (createDepartment 3%N req Sample.db))
       = MessageDepartment "Successfully saved department" d'
       /\ dept_id d' = 3%N
       /\ dept_employees d' = []
       /\ departments (snd (createDepartment 3%N req Sample.db))
          = departments Sample.db ++ [d']
       /\ findDepartmentByName (snd (createDepartment 3%N req Sample.db))
            (dept_name d') = Ok d'
       /\ forall req',
            departmentName req' = dept_name d' ->
            getDepartment req' (snd (createDepartment 3%N req Sample.db))
            = {| reply_status := 200; reply_body := DepartmentJson d' |}.
Proof.
  intros req d.
  assert (H : reply_status (fst (createDepartment 3%N req Sample.db)) = 201)
    by (vm_compute; reflexivity).
  split; [exact H |].
  exact (createDepartment_then_found 3%N req Sample.db _ _
           (surjective_pairing _) H).
Defined.

Lemma NoDup_map_middle {A B : Type} (f : A -> B) before x y after :
  List.NoDup (map f (before ++ x :: after)) ->
  ~ In (f y) (map f (before ++ after)) ->
  List.NoDup (map f (before ++ y :: after)).
Proof.
  rewrite !List.map_app. simpl. intros Hnd Hy.
  apply NoDup_remove_1 in Hnd.
  apply NoDup_Add with (a := f y) (l := map f before ++ map f after).
  - apply Add_app.
  - split; assumption.
Qed.

Lemma updateDepartment_outcome req db rep db' :
  updateDepartment req db = (rep, db') ->
  (exists before d after d',
     reply_status rep = 200
     /\ reply_body rep = MessageDepartment "Department updated successfully" d'
     /\ departments db = before ++ d :: after
     /\ findOne (named (departmentName req)) (departments db) = Some d
     /\ dept_id d' = dept_id d
     /\ dept_employees d' = dept_employees d
     /\ db' = setDepartments (before ++ d' :: after) db
     /\ (List.NoDup (map dept_name (departments db)) ->
         ~ In (dept_name d') (map dept_name (before ++ after))))
  \/ (db' = db /\ reply_status rep <> 200
      /\ forall m d, reply_body rep <> MessageDepartment m d).
Proof.
  unfold updateDepartment.
  destruct (negb _);
    [intros [= <- <-]; right; repeat split; discriminate |].
  destruct (findOne _ (departments db)) as [d|] eqn:Hfind;
    [| intros [= <- <-]; right; repeat split; discriminate].
  destruct (first_match_split _
              (applyDepartmentUpdate
                 (assign_if castString (body req !! "name"))
                 (assign_if castString (body req !! "description")))
              _ _ Hfind) as (before & after & Hl & Hr & Hrep).
  rewrite Hr, Hrep.
  destruct (assign_if castString (body req !! "name")) as [|n|] eqn:Hname.
  - intros [= <- <-]. left. exists before, d, after. eexists.
    repeat split; try eassumption.
    intros Hnd. rewrite Hl, List.map_app in Hnd. simpl in Hnd.
    apply NoDup_remove_2 in Hnd. rewrite List.map_app. exact Hnd.
  - destruct (existsb (named n) (before ++ after)) eqn:Hdup;
      [intros [= <- <-]; right; repeat split; discriminate |].
    intros [= <- <-]. left. exists before, d, after. eexists.
    repeat split; try eassumption.
    intros _. apply existsb_named_false in Hdup. exact Hdup.
  - intros [= <- <-]. left. exists before, d, after. eexists.
    repeat split; try eassumption.
    intros Hnd. rewrite Hl, List.map_app in Hnd. simpl in Hnd.
    apply NoDup_remove_2 in Hnd. rewrite List.map_app. exact Hnd.
Qed.

Lemma deleteDepartment_outcome req db rep db' :
  deleteDepartment req db = (rep, db') ->
  (exists before d after,
     reply_status rep = 200
     /\ reply_body rep = MessageDepartment "Department deleted successfully" d
     /\ departments db = before ++ d :: after
     /\ dept_name d = departmentName req
     /\ db' = setDepartments (before ++ after) db)
  \/ (db' = db /\ reply_status rep <> 200).
Proof.
  unfold deleteDepartment.
  destruct (findOne _ (departments db)) as [d|] eqn:Hfind;
    [| intros [= <- <-]; right; split; [reflexivity | discriminate]].
  intros [= <- <-]. left.
  destruct (first_match_split _ (fun x => x) _ _ Hfind)
    as (before & after & Hl & Hr & _).
  apply findOne_some in Hfind. destruct Hfind as [_ Hq].
  unfold named in Hq. apply String.eqb_eq in Hq. rewrite Hr.
  exists before, d, after. repeat split; assumption.
Qed.

(** X23: the three writing department routes keep the names unique: if no
    two stored departments bear the same name, none do in the store that a
    creation, an update or a deletion leaves. *)
Theorem department_routes_keep_names_unique newId req db :
  List.NoDup (map dept_name (departments db)) ->
  List.NoDup (map dept_name (departments (snd (createDepartment newId req db))))
  /\ List.NoDup (map dept_name (departments (snd (updateDepartment req db))))
  /\ List.NoDup (map dept_name (departments (snd (deleteDepartment req db)))).
Proof.
  intros Hnd. split; [| split].
  - unfold createDepartment.
    destruct (requiredString (body req !! "name")) as [name|err];
      [| exact Hnd].
    destruct (requiredString (body req !! "description"))
      as [description|err]; [| exact Hnd].
    destruct (existsb (named name) (departments db)) eqn:Hdup; [exact Hnd |].
    apply existsb_named_false in Hdup. simpl.
    rewrite map_app. simpl. apply NoDup_Add with (a := name)
      (l := map dept_name (departments db)).
    + rewrite <- (app_nil_r (map dept_name (departments db))) at 1.
      apply Add_app.
    + split; assumption.
  - destruct (updateDepartment req db) as [rep db'] eqn:Hrun. cbn [snd].
    destruct (updateDepartment_outcome _ _ _ _ Hrun)
      as [(before & d & after & d' & _ & _ & Hl & _ & _ & _ & -> & Hfree)
         | (-> & _)]; [| exact Hnd].
    cbn [departments setDepartments].
    eapply NoDup_map_middle; [rewrite <- Hl; exact Hnd | exact (Hfree Hnd)].
  - destruct (deleteDepartment req db) as [rep db'] eqn:Hrun. cbn [snd].
    destruct (deleteDepartment_outcome _ _ _ _ Hrun)
      as [(before & d & after & _ & _ & Hl & _ & ->) | (-> & _)]; [| exact Hnd].
    cbn [departments setDepartments].
    rewrite Hl, List.map_app in Hnd. simpl in Hnd.
    apply NoDup_remove_1 in Hnd. rewrite List.map_app. exact Hnd.
Qed.

Lemma department_routes_keep_names_unique_sample :
  let req := Sample.request None "Engineering" None Cases.rename_body in
  List.NoDup (map dept_name (departments Sample.db))
  /\ map dept_name (departments (snd (updateDepartment req Sample.db)))
     = ["Platform"; "Archive"]
  /\ List.NoDup
       (map dept_name (departments (snd (updateDepartment req Sample.db)))).
Proof.
  intros req.
  assert (Hnd : List.NoDup (map dept_name (departments Sample.db))).
  { simpl. repeat constructor; simpl; intuition discriminate. }
  split; [exact Hnd |]. split; [vm_compute; reflexivity |].
  exact (proj1 (proj2 (department_routes_keep_names_unique 0%N req Sample.db
                         Hnd))).
Defined.

Lemma selectEmployee_store db db' dep :
  employees db' = employees db ->
  tasks db' = tasks db ->
  selectEmployee db' dep = selectEmployee db dep.
Proof.
  destruct db, db'; simpl. intros -> ->. reflexivity.
Qed.

(** X24: renaming a department, or giving it another description, does not
    change how its tasks are assigned: with department names unique, a
    creation request under the name the department bears after the update
    gets the answer, and leaves the tasks, that the same request under the
    former name would have got before. *)
Theorem updateDepartment_keeps_assignment
    now newId req db rep db' d' req1 req2 :
  List.NoDup (map dept_name (departments db)) ->
  updateDepartment req db = (rep, db') ->
  reply_body rep = MessageDepartment "Department updated successfully" d' ->
  departmentName req1 = departmentName req ->
  departmentName req2 = dept_name d' ->
  body req2 = body req1 ->
  fst (createTask now newId req2 db') = fst (createTask now newId req1 db)
  /\ tasks (snd (createTask now newId req2 db'))
     = tasks (snd (createTask now newId req1 db)).
Proof.
  intros Hnd Hrun Hbody Hold Hnew Hsame.
  destruct (updateDepartment_outcome _ _ _ _ Hrun)
    as [(before & d & after & d0 & _ & Hb & Hl & Hfind & Hid & _ & -> & Hfree)
       | (_ & _ & Hno)]; [| destruct (Hno _ _ Hbody)].
  - rewrite Hbody in Hb. injection Hb as <-.
    assert (Hfind' : findOne (named (dept_name d')) (before ++ d' :: after)
                     = Some d').
    { apply findOne_by_unique_name; [| apply in_elt].
      eapply NoDup_map_middle; [rewrite <- Hl; exact Hnd | exact (Hfree Hnd)]. }
    unfold createTask.
    rewrite !findDepartmentByName_named, Hnew, Hold, Hfind.
    cbn [departments setDepartments]. rewrite Hfind'.
    rewrite (selectEmployee_store db (setDepartments (before ++ d' :: after) db))
      by reflexivity.
    rewrite Hid, Hsame.
    destruct (selectEmployee db (dept_id d)) as [employee|];
      [| split; reflexivity].
    destruct (newTask _ _ _ _ _ _) as [task | err]; [split; reflexivity |].
    destruct err as [m | |]; [destruct (String.eqb m _) |..]; split; reflexivity.
Qed.

Lemma updateDepartment_keeps_assignment_sample :
  let req := Sample.request None "Engineering" None Cases.rename_body in
  let req1 := Sample.request None "Engineering" None Sample.new_task_body in
  let req2 := Sample.request None "Platform" None Sample.new_task_body in
  let d' := {| dept_id := 1%N; dept_name := "Platform";
               dept_description := "Builds things"; dept_employees := [] |} in
  List.NoDup (map dept_name (departments Sample.db))
  /\ reply_body (fst (updateDepartment req Sample.db))
     = MessageDepartment "Department updated successfully" d'
  /\ fst (createTask 1000 500%N req2 (snd (updateDepartment req Sample.db)))
     = fst (createTask 1000 500%N req1 Sample.db)
  /\ tasks (snd (createTask 1000 500%N req2
                   (snd (updateDepartment req Sample.db))))
     = tasks (snd (createTask 1000 500%N req1 Sample.db)).
Proof.
  intros req req1 req2 d'.
  assert (Hnd : List.NoDup (map dept_name (departments Sample.db))).
  { simpl. repeat constructor; simpl; intuition discriminate. }
  assert (Hb : reply_body (fst (updateDepartment req Sample.db))
               = MessageDepartment "Department updated successfully" d')
    by (vm_compute; reflexivity).
  split; [exact Hnd |]. split; [exact Hb |].
  exact (updateDepartment_keeps_assignment 1000 500%N req Sample.db _ _ d'
           req1 req2 Hnd (surjective_pairing _) Hb eq_refl eq_refl eq_refl).
Defined.

Lemma populated_absent db e :
  (forall d, In d (departments db) -> dept_id d <> emp_departmentId e) ->
  view_departmentName (viewOf db e) = "N/A".
Proof.
  intros H. unfold viewOf, populated; simpl.
  replace (findOne _ (departments db)) with (@None Department); [reflexivity |].
  symmetry. apply findOne_none. intros d Hd.
  destruct (N.eqb_spec (dept_id d) (emp_departmentId e)) as [Heq | Hne];
    [destruct (H d Hd Heq) | reflexivity].
Qed.

(** X25: deleting a department deletes nothing else: its employees and its
    tasks stay in the store. With names unique, a creation request under the
    deleted name is answered 404 from then on; with department ids unique,
    the admin listing shows "N/A" as the department of every employee that
    still refers to it. *)
Theorem deleteDepartment_orphans now newId req db rep db' :
  deleteDepartment req db = (rep, db') ->
  reply_status rep = 200 ->
  exists deleted,
    reply_body rep = MessageDepartment "Department deleted successfully" deleted
    /\ In deleted (departments db)
    /\ dept_name deleted = departmentName req
    /\ employees db' = employees db
    /\ tasks db' = tasks db
    /\ (List.NoDup (map dept_name (departments db)) ->
        createTask now newId req db'
        = ({| res_status := 404; res_body := Message "Department not found" |},
           db'))
    /\ (List.NoDup (map dept_id (departments db)) ->
        forall i e,
          nth_error (employees db) i = Some e ->
          emp_departmentId e = dept_id deleted ->
          exists vs v,
            listEmployeeViews db'
            = {| reply_status := 200; reply_body := ViewList vs |}
            /\ nth_error vs i = Some v
            /\ view_name v = emp_name e
            /\ view_departmentName v = "N/A").
Proof.
  intros Hrun Hok.
  destruct (deleteDepartment_outcome _ _ _ _ Hrun)
    as [(before & d & after & _ & Hb & Hl & Hname & ->) | (_ & Hno)];
    [| contradiction].
  exists d. split; [exact Hb |]. split; [rewrite Hl; apply in_elt |].
  split; [exact Hname |]. split; [reflexivity |]. split; [reflexivity |].
  split.
  - intros Hnd. unfold createTask. rewrite findDepartmentByName_named.
    cbn [departments setDepartments].
    replace (findOne _ (before ++ after)) with (@None Department);
      [reflexivity |].
    symmetry. apply findOne_none. intros x Hx.
    destruct (named (departmentName req) x) eqn:Hq; [| reflexivity].
    unfold named in Hq. apply String.eqb_eq in Hq.
    exfalso. rewrite Hl, List.map_app in Hnd. simpl in Hnd.
    apply NoDup_remove_2 in Hnd. apply Hnd.
    rewrite <- List.map_app, Hname, <- Hq. apply in_map. exact Hx.
  - intros Hnd i e Hi He.
    exists (map (viewOf (setDepartments (before ++ after) db)) (employees db)),
      (viewOf (setDepartments (before ++ after) db) e).
    split; [| split; [| split]].
    + unfold listEmployeeViews. cbn [employees setDepartments].
      destruct (employees db); [destruct i; discriminate Hi | reflexivity].
    + apply map_nth_error. exact Hi.
    + reflexivity.
    + apply populated_absent.
      cbn [departments setDepartments]. intros x Hx Hid.
      rewrite Hl, List.map_app in Hnd. simpl in Hnd.
      apply NoDup_remove_2 in Hnd. apply Hnd.
      rewrite <- List.map_app, <- He, <- Hid. apply in_map. exact Hx.
Qed.

Lemma deleteDepartment_orphans_sample :
  let req := Sample.request None "Engineering" None Sample.new_task_body in
  reply_status (fst (deleteDepartment req Sample.db)) = 200
  /\ List.NoDup (map dept_name (departments Sample.db))
  /\ List.NoDup (map dept_id (departments Sample.db))
  /\ createTask 1000 500%N req (snd (deleteDepartment req Sample.db))
     = ({| res_status := 404; res_body := Message "Department not found" |},
        snd (deleteDepartment req Sample.db))
  /\ view_departmentName (viewOf Sample.db Sample.E1) = "Engineering"
  /\ exists vs v,
       listEmployeeViews (snd (deleteDepartment req Sample.db))
       = {| reply_status := 200; reply_body := ViewList vs |}
       /\ nth_error vs 0 = Some v
       /\ view_name v = emp_name Sample.E1
       /\ view_departmentName v = "N/A".
Proof.
  intros req.
  assert (Hok : reply_status (fst (deleteDepartment req Sample.db)) = 200)
    by reflexivity.
  assert (Hn : List.NoDup (map dept_name (departments Sample.db))).
  { simpl. repeat constructor; simpl; intuition discriminate. }
  assert (Hi : List.NoDup (map dept_id (departments Sample.db))).
  { simpl. repeat constructor; simpl; intuition discriminate. }
  destruct (deleteDepartment_orphans 1000 500%N req Sample.db _ _
              (surjective_pairing _) Hok)
    as (deleted & Hb & _ & _ & _ & _ & Hcreate & Hview).
  injection Hb as <-.
  split; [exact Hok |]. split; [exact Hn |]. split; [exact Hi |].
  split; [exact (Hcreate Hn) |]. split; [reflexivity |].
  exact (Hview Hi 0 Sample.E1 eq_refl eq_refl).
Defined.

(** X26: a creation request changes the store in one way only: it answers
    201 and appends the one task it answers with, or it answers 404 or 500
    and leaves the store exactly as it was. Departments and employees are
    never altered. *)
Theorem createTask_appends_or_leaves now newId req db :
  departments (snd (createTask now newId req db)) = departments db
  /\ employees (snd (createTask now newId req db)) = employees db
  /\ ((res_status (fst (createTask now newId req db)) = 201
       /\ exists task,
            res_body (fst (createTask now newId req db)) = TaskJson task
            /\ task_id task = newId
            /\ tasks (snd (createTask now newId req db)) = tasks db ++ [task])
      \/ ((res_status (fst (createTask now newId req db)) = 404
           \/ res_status (fst (createTask now newId req db)) = 500)
          /\ snd (createTask now newId req db) = db)).
Proof.
  destruct (createTask_employees now newId req db) as [He Hd].
  split; [exact Hd |]. split; [exact He |].
  destruct (createTask now newId req db) as [res db'] eqn:Hrun. cbn [fst snd].
  destruct (createTask_outcome _ _ _ _ _ _ Hrun)
    as [(task & -> & ->) | (-> & Hstatus & _)].
  - left. split; [reflexivity |]. exists task.
    destruct (createTask_created _ _ _ _ _ _ task Hrun eq_refl)
      as (department & employee & t & d & _ & _ & _ & _ & -> & _ & _).
    repeat split.
  - right. split; [exact Hstatus | reflexivity].
Qed.
